(** * SqlLiteSyncStorage: the clock-ordered, tombstoned document store

    A shallow embedding of
    [packages/sync-core/src/lib/SqlLiteSyncStorage.ts].

    - The four SQL tables are the record [SqlStorage].  [documents],
      [tombstones] and [metadata] declare a [PRIMARY KEY], so each is a
      finite map from its key to the remaining columns; [clock] has no key
      and is a list of rows.
    - Every [sql.exec] of the source has one definition below, named after
      its statement and quoting it.
    - JavaScript code that may throw runs in the monad [M]: a state
      transformer that returns either a value or the thrown error, and
      keeps the state reached when the error was thrown.
    - Clock values are SQLite INTEGERs read as JavaScript numbers; they are
      modelled as [Z], which is exact below 2^53.
    - A listener is caller code: a call to it is recorded, with its
      arguments, and taken to return.
    - The host runtime ([transactionSync]) and the two helpers imported
      from other packages ([throttle], [transaction] of [@tldraw/state])
      are modelled from their contracts; each says so where it is
      defined. *)

From stdpp Require Import gmap strings list fin_maps sorting.
From Stdlib Require Import ZArith Lia DecimalString.

Local Open Scope Z_scope.

(** ** Constants *)

Definition TOMBSTONE_PRUNE_BUFFER_SIZE : nat := 1000.
Definition MAX_TOMBSTONES : nat := 5000.

(** ** Errors and the exception-and-state monad *)

Inductive Error : Type :=
| SqlOneNoRow                       (* [.one()] on an empty result *)
| SqlConstraintPrimaryKey (table : string) (* INSERT on an existing key *)
| JsError (message : string).       (* an error thrown by caller code *)

Inductive Result (A : Type) : Type :=
| Ok (a : A)
| Throw (e : Error).
Arguments Ok {A} a.
Arguments Throw {A} e.

Definition M (S A : Type) : Type := S -> S * Result A.

Definition ret {S A} (a : A) : M S A := fun s => (s, Ok a).
Definition throw {S A} (e : Error) : M S A := fun s => (s, Throw e).
Definition bind {S A B} (m : M S A) (k : A -> M S B) : M S B :=
  fun s =>
    match m s with
    | (s', Ok a) => k a s'
    | (s', Throw e) => (s', Throw e)
    end.
Definition gets {S A} (f : S -> A) : M S A := fun s => (s, Ok (f s)).
Definition modify {S} (f : S -> S) : M S unit := fun s => (f s, Ok tt).
Definition try_catch {S A} (m : M S A) (h : Error -> M S A) : M S A :=
  fun s =>
    match m s with
    | (s', Ok a) => (s', Ok a)
    | (s', Throw e) => h e s'
    end.

Declare Scope js_scope.
Delimit Scope js_scope with js.
Notation "x <- c1 ;; c2" := (bind c1 (fun x => c2))
  (at level 100, c1 at next level, right associativity) : js_scope.
Notation "c1 ;;; c2" := (bind c1 (fun _ => c2))
  (at level 100, right associativity) : js_scope.

(** [for (const x of xs) body(x)] *)
Fixpoint for_of {S A} (xs : list A) (body : A -> M S unit) : M S unit :=
  match xs with
  | [] => ret tt
  | x :: xs' => bind (body x) (fun _ => for_of xs' body)
  end.

(** ** The SQL tables *)

Record DocumentRow : Type := {
  state : string;             (* state TEXT NOT NULL: the JSON text *)
  lastChangedClock : Z        (* lastChangedClock INTEGER NOT NULL *)
}.

Record ClockRow : Type := {
  documentClock : Z;
  tombstoneHistoryStartsAtClock : Z
}.

Record SqlStorage : Type := {
  documents : gmap string DocumentRow;  (* id TEXT PRIMARY KEY *)
  tombstones : gmap string Z;           (* id TEXT PRIMARY KEY, clock *)
  metadata : gmap string string;        (* key TEXT PRIMARY KEY, value *)
  clock : list ClockRow                 (* no key *)
}.

Definition with_documents (d : gmap string DocumentRow) (db : SqlStorage) :=
  {| documents := d; tombstones := tombstones db;
     metadata := metadata db; clock := clock db |}.
Definition with_tombstones (t : gmap string Z) (db : SqlStorage) :=
  {| documents := documents db; tombstones := t;
     metadata := metadata db; clock := clock db |}.
Definition with_metadata (m : gmap string string) (db : SqlStorage) :=
  {| documents := documents db; tombstones := tombstones db;
     metadata := m; clock := clock db |}.
Definition with_clock (c : list ClockRow) (db : SqlStorage) :=
  {| documents := documents db; tombstones := tombstones db;
     metadata := metadata db; clock := c |}.

(** ** The statements *)

(** [SELECT documentClock FROM clock LIMIT 1] followed by [.one()]:
    the first row, and an exception when there is none. *)
Definition select_documentClock_one (db : SqlStorage) : Result Z :=
  match clock db with
  | [] => Throw SqlOneNoRow
  | row :: _ => Ok (documentClock row)
  end.

(** [SELECT tombstoneHistoryStartsAtClock FROM clock LIMIT 1], [.one()] *)
Definition select_tombstoneHistoryStartsAtClock_one (db : SqlStorage)
  : Result Z :=
  match clock db with
  | [] => Throw SqlOneNoRow
  | row :: _ => Ok (tombstoneHistoryStartsAtClock row)
  end.

(** [UPDATE clock SET documentClock = documentClock + 1] *)
Definition update_documentClock_plus_1 (db : SqlStorage) : SqlStorage :=
  with_clock
    ((fun row => {| documentClock := documentClock row + 1;
                    tombstoneHistoryStartsAtClock :=
                      tombstoneHistoryStartsAtClock row |}) <$> clock db)
    db.

(** [UPDATE clock SET tombstoneHistoryStartsAtClock = ?] *)
Definition update_tombstoneHistoryStartsAtClock (w : Z) (db : SqlStorage)
  : SqlStorage :=
  with_clock
    ((fun row => {| documentClock := documentClock row;
                    tombstoneHistoryStartsAtClock := w |}) <$> clock db)
    db.

(** [SELECT COUNT( * ) as count FROM tombstones] *)
Definition select_count_tombstones (db : SqlStorage) : nat :=
  size (tombstones db).

(** The order of [ORDER BY clock DESC]: newer clocks first. *)
Definition clock_desc (a b : string * Z) : Prop := b.2 <= a.2.
Global Instance clock_desc_dec a b : Decision (clock_desc a b) :=
  Z_le_dec b.2 a.2.

(** [SELECT id, clock FROM tombstones ORDER BY clock DESC] *)
Definition select_tombstones_order_by_clock_desc (db : SqlStorage)
  : list (string * Z) :=
  merge_sort clock_desc (map_to_list (tombstones db)).

(** [DELETE FROM tombstones WHERE id = ?] *)
Definition delete_from_tombstones (id : string) (db : SqlStorage)
  : SqlStorage :=
  with_tombstones (delete id (tombstones db)) db.

(** [DELETE FROM documents WHERE id = ?] *)
Definition delete_from_documents (id : string) (db : SqlStorage)
  : SqlStorage :=
  with_documents (delete id (documents db)) db.

(** [INSERT INTO tombstones (id, clock) VALUES (?, ?)]: a plain INSERT,
    which fails on a key that is already there. *)
Definition insert_into_tombstones (id : string) (c : Z) (db : SqlStorage)
  : Result SqlStorage :=
  match tombstones db !! id with
  | Some _ => Throw (SqlConstraintPrimaryKey "tombstones")
  | None => Ok (with_tombstones (<[id := c]> (tombstones db)) db)
  end.

(** [INSERT OR REPLACE INTO documents (id, state, lastChangedClock)
     VALUES (?, ?, ?)] *)
Definition insert_or_replace_into_documents
    (id : string) (json : string) (c : Z) (db : SqlStorage) : SqlStorage :=
  with_documents
    (<[id := {| state := json; lastChangedClock := c |}]> (documents db)) db.

(** [INSERT OR REPLACE INTO metadata (key, value) VALUES (?, ?)] *)
Definition insert_or_replace_into_metadata
    (key value : string) (db : SqlStorage) : SqlStorage :=
  with_metadata (<[key := value]> (metadata db)) db.

(** [SELECT state, lastChangedClock FROM documents WHERE id = ?] *)
Definition select_document_where_id (id : string) (db : SqlStorage)
  : option DocumentRow :=
  documents db !! id.

(** [SELECT id, state, lastChangedClock FROM documents] *)
Definition select_documents (db : SqlStorage) : list (string * DocumentRow) :=
  map_to_list (documents db).

(** [SELECT value FROM metadata WHERE key = ?] *)
Definition select_metadata_where_key (key : string) (db : SqlStorage)
  : option string :=
  metadata db !! key.

(** [SELECT id, clock FROM tombstones] *)
Definition select_tombstones (db : SqlStorage) : list (string * Z) :=
  map_to_list (tombstones db).

(** [SELECT state, lastChangedClock FROM documents
     WHERE lastChangedClock > ?] *)
Definition select_documents_where_lastChangedClock_gt
    (c : Z) (db : SqlStorage) : list DocumentRow :=
  filter (fun row => c < lastChangedClock row) (select_documents db).*2.

(** [SELECT id, clock FROM tombstones WHERE clock > ?] *)
Definition select_tombstones_where_clock_gt (c : Z) (db : SqlStorage)
  : list (string * Z) :=
  filter (fun row => c < row.2) (select_tombstones db).

(** ** The storage object *)

(** A member of the [listeners] set: the closure [cb] that [onChange]
    builds around the caller's [callback].  Every call of [onChange]
    builds a new closure, told apart here by the number of the
    registration; the caller's function is named by a number. *)
Record Listener : Type := {
  registration : nat;
  callback : nat
}.

(** One call [callback({ source, documentClock })]. *)
Record Notification : Type := {
  notified : nat;
  arg_source : string;
  arg_documentClock : Z
}.

(** The fields of the class, followed by what its methods do outside the
    object: whether the timer of the throttled [pruneTombstones] is armed,
    the lines written by [console.error], and the calls made to the
    callbacks, oldest first.  A callback is caller code: its call is
    recorded and taken to return. *)
Record SqlLiteSyncStorage : Type := {
  sql : SqlStorage;
  listeners : list Listener;
  registrations : nat;
  pruneTombstones_timer : bool;
  console_error : list (Z * Z);
  calls : list Notification
}.

Definition with_sql (db : SqlStorage) (s : SqlLiteSyncStorage) :=
  {| sql := db; listeners := listeners s; registrations := registrations s;
     pruneTombstones_timer := pruneTombstones_timer s;
     console_error := console_error s; calls := calls s |}.
Definition with_listeners (ls : list Listener) (n : nat)
    (s : SqlLiteSyncStorage) :=
  {| sql := sql s; listeners := ls; registrations := n;
     pruneTombstones_timer := pruneTombstones_timer s;
     console_error := console_error s; calls := calls s |}.
Definition with_timer (b : bool) (s : SqlLiteSyncStorage) :=
  {| sql := sql s; listeners := listeners s; registrations := registrations s;
     pruneTombstones_timer := b;
     console_error := console_error s; calls := calls s |}.
Definition with_console_error (l : list (Z * Z)) (s : SqlLiteSyncStorage) :=
  {| sql := sql s; listeners := listeners s; registrations := registrations s;
     pruneTombstones_timer := pruneTombstones_timer s;
     console_error := l; calls := calls s |}.
Definition with_calls (l : list Notification) (s : SqlLiteSyncStorage) :=
  {| sql := sql s; listeners := listeners s; registrations := registrations s;
     pruneTombstones_timer := pruneTombstones_timer s;
     console_error := console_error s; calls := l |}.

(** [this.sql.exec(...)] for a statement that writes, for one that may
    fail, and for one that reads. *)
Definition exec (stmt : SqlStorage -> SqlStorage) : M SqlLiteSyncStorage unit :=
  modify (fun s => with_sql (stmt (sql s)) s).
Definition exec_checked (stmt : SqlStorage -> Result SqlStorage)
  : M SqlLiteSyncStorage unit :=
  fun s =>
    match stmt (sql s) with
    | Ok db => (with_sql db s, Ok tt)
    | Throw e => (s, Throw e)
    end.
Definition query {A} (stmt : SqlStorage -> A) : M SqlLiteSyncStorage A :=
  gets (fun s => stmt (sql s)).
Definition query_one {A} (stmt : SqlStorage -> Result A)
  : M SqlLiteSyncStorage A :=
  fun s => (s, stmt (sql s)).

Section Storage.
Local Open Scope js_scope.

(** [onChange(callback)]: adds a new closure to the set and returns its
    disposer, here the listener to hand to [unsubscribe]. *)
Definition onChange (cb : nat) : M SqlLiteSyncStorage Listener :=
  n <- gets registrations ;;
  ls <- gets listeners ;;
  let l := {| registration := n; callback := cb |} in
  modify (with_listeners (ls ++ [l]) (S n)) ;;;
  ret l.

Global Instance Listener_eq_dec : EqDecision Listener.
Proof. solve_decision. Defined.

(** The function returned by [onChange]: [this.listeners.delete(cb)]. *)
Definition unsubscribe (l : Listener) : M SqlLiteSyncStorage unit :=
  modify (fun s =>
    with_listeners (filter (fun l' => l' <> l) (listeners s))
                   (registrations s) s).

(** [listener(source, documentClock)], which is
    [callback({ source, documentClock })]. *)
Definition notification (source : string) (c : Z) (l : Listener)
  : Notification :=
  {| notified := callback l; arg_source := source; arg_documentClock := c |}.

Definition call_listener (l : Listener) (source : string) (c : Z)
  : M SqlLiteSyncStorage unit :=
  modify (fun s => with_calls (calls s ++ [notification source c l]) s).

Definition getClock : M SqlLiteSyncStorage Z :=
  query_one select_documentClock_one.

Definition _getTombstoneHistoryStartsAtClock : M SqlLiteSyncStorage Z :=
  query_one select_tombstoneHistoryStartsAtClock_one.

(** *** pruneTombstones *)

(** The [while] loop that finds the cutoff.  [tombstones[i]?.clock] is
    [undefined] out of range, which is [None] here.  Each turn moves
    [cutoff] one step towards [tombstones.length], so the distance between
    them bounds the number of turns. *)
Fixpoint find_cutoff_loop (turns : nat) (tombstones : list (string * Z))
    (cutoff : nat) : nat :=
  match turns with
  | O => cutoff
  | S turns' =>
      if decide ((cutoff < length tombstones)%nat /\
                 snd <$> tombstones !! (cutoff - 1)%nat
                 = snd <$> tombstones !! cutoff)
      then find_cutoff_loop turns' tombstones (S cutoff)
      else cutoff
  end.

Definition find_cutoff (tombstones : list (string * Z)) : nat :=
  find_cutoff_loop (length tombstones - TOMBSTONE_PRUNE_BUFFER_SIZE)
                   tombstones TOMBSTONE_PRUNE_BUFFER_SIZE.

(** The function handed to [throttle]: one run of the pruner. *)
Definition pruneTombstones_run : M SqlLiteSyncStorage unit :=
  tombstoneCount <- query select_count_tombstones ;;
  if decide (MAX_TOMBSTONES < tombstoneCount)%nat then
    tombstones <- query select_tombstones_order_by_clock_desc ;;
    let cutoff := find_cutoff tombstones in
    newTombstoneHistoryStartsAtClock <-
      match tombstones !! cutoff with
      | Some t => ret t.2
      | None => getClock
      end ;;
    exec (update_tombstoneHistoryStartsAtClock
            newTombstoneHistoryStartsAtClock) ;;;
    if decide (cutoff < length tombstones)%nat then
      let idsToDelete := (drop cutoff tombstones).*1 in
      for_of idsToDelete (fun id => exec (delete_from_tombstones id))
    else ret tt
  else ret tt.

(** Modelled from the spec: [throttle] of [@tldraw/utils] is not among the
    sources.  With a window of 1000 ms and [leading: false] a call runs
    nothing: it arms the timer, and [pruneTombstones_run] runs once when
    the timer fires, whatever the number of calls in between. *)
Definition pruneTombstones : M SqlLiteSyncStorage unit :=
  modify (with_timer true).

(** The timer fires: it is disarmed and the pruner runs. *)
Definition pruneTombstones_fire : M SqlLiteSyncStorage unit :=
  armed <- gets pruneTombstones_timer ;;
  if armed then modify (with_timer false) ;;; pruneTombstones_run
  else ret tt.

(** Modelled from the spec: [storage.transactionSync] belongs to the host
    runtime.  It runs the closure in an atomic scope over the SQL handle;
    the scope commits on normal return and is rolled back on a thrown
    error, which goes on to the caller.  Only the tables are in the scope. *)
Definition transactionSync {A} (closure : M SqlLiteSyncStorage A)
  : M SqlLiteSyncStorage A :=
  fun s =>
    match closure s with
    | (s', Ok a) => (s', Ok a)
    | (s', Throw e) => (with_sql (sql s) s', Throw e)
    end.

(** Modelled from the spec: [transaction] of [@tldraw/state] is not among
    the sources.  It is the reactive batching envelope: it runs the
    function and hands back what the function returns or throws. *)
Definition state_transaction {S A} (fn : M S A) : M S A := fn.

End Storage.

(** ** Records and changes *)

(** [R extends UnknownRecord]: a record type, with what the storage asks
    of it, its JSON text and the way back. *)
Class UnknownRecord (R : Type) : Type := {
  JSON_stringify : R -> string;
  JSON_parse : string -> R
}.

(** [TLPersistentStorageChange<R>] *)
Inductive TLPersistentStorageChange (R : Type) : Type :=
| WIPE_ALL
| PUT (record : R)
| DELETE (id : string).
Arguments WIPE_ALL {R}.
Arguments PUT {R} record.
Arguments DELETE {R} id.

Definition is_WIPE_ALL {R} (c : TLPersistentStorageChange R) : bool :=
  match c with WIPE_ALL => true | _ => false end.

(** [TLPersistentStorageTransactionResult<T>] *)
Record TLPersistentStorageTransactionResult (T : Type) : Type := {
  result_documentClock : Z;
  didChange : bool;
  result : T
}.
Arguments result_documentClock {T} _.
Arguments didChange {T} _.
Arguments result {T} _.

(** ** The transaction handle *)

Record SqlLiteSyncStorageTransaction : Type := {
  storage : SqlLiteSyncStorage;
  _didIncrementClock : bool
}.

(** [this.storage.m(...)]: a method of the storage called from the handle. *)
Definition on_storage {A} (m : M SqlLiteSyncStorage A)
  : M SqlLiteSyncStorageTransaction A :=
  fun txn =>
    match m (storage txn) with
    | (s', r) =>
        ({| storage := s'; _didIncrementClock := _didIncrementClock txn |}, r)
    end.

(** *** Transaction bodies *)

(** The callback handed to [transaction]: a program over the operations of
    the handle.  It may return, throw, call an operation and go on with
    what it returned, or run a part of itself under [try]/[catch]. *)
Inductive Callback (R T : Type) : Type :=
| Return (t : T)
| ThrowError (message : string)
| TryCatch (body : Callback R T) (handler : Error -> Callback R T)
| GetClock (k : Z -> Callback R T)
| GetDocument (id : string) (k : option (R * Z) -> Callback R T)
| SetDocument (id : string) (st : R) (k : Callback R T)
| DeleteDocument (id : string) (k : Callback R T)
| Documents (k : list (string * (R * Z)) -> Callback R T)
| DocumentIds (k : list string -> Callback R T)
| GetMetadata (key : string) (k : option string -> Callback R T)
| SetMetadata (key value : string) (k : Callback R T)
| Tombstones (k : list (string * Z) -> Callback R T)
| GetChangesSince (sinceClock : Z)
    (k : list (TLPersistentStorageChange R) -> Callback R T).
Arguments Return {R T} t.
Arguments ThrowError {R T} message.
Arguments TryCatch {R T} body handler.
Arguments GetClock {R T} k.
Arguments GetDocument {R T} id k.
Arguments SetDocument {R T} id st k.
Arguments DeleteDocument {R T} id k.
Arguments Documents {R T} k.
Arguments DocumentIds {R T} k.
Arguments GetMetadata {R T} key k.
Arguments SetMetadata {R T} key value k.
Arguments Tombstones {R T} k.
Arguments GetChangesSince {R T} sinceClock k.

Section Transaction.
Context {R : Type} `{UnknownRecord R}.
Local Open Scope js_scope.

Definition txn_getClock : M SqlLiteSyncStorageTransaction Z :=
  on_storage getClock.

Definition getNextClock : M SqlLiteSyncStorageTransaction Z :=
  did <- gets _didIncrementClock ;;
  (if negb did then
     modify (fun txn => {| storage := storage txn;
                           _didIncrementClock := true |}) ;;;
     on_storage (exec update_documentClock_plus_1)
   else ret tt) ;;;
  txn_getClock.

Definition getDocument (id : string)
  : M SqlLiteSyncStorageTransaction (option (R * Z)) :=
  row <- on_storage (query (select_document_where_id id)) ;;
  match row with
  | None => ret None
  | Some row => ret (Some (JSON_parse (state row), lastChangedClock row))
  end.

Definition setDocument (id : string) (st : R)
  : M SqlLiteSyncStorageTransaction unit :=
  clock <- getNextClock ;;
  on_storage
    (exec (insert_or_replace_into_documents id (JSON_stringify st) clock)).

Definition deleteDocument (id : string)
  : M SqlLiteSyncStorageTransaction unit :=
  clock <- getNextClock ;;
  on_storage (exec (delete_from_documents id)) ;;;
  on_storage (exec_checked (insert_into_tombstones id clock)) ;;;
  on_storage pruneTombstones.

(** The generators [documents], [documentIds] and [tombstones] are taken
    at the rows they yield when run to the end at once. *)
Definition txn_documents
  : M SqlLiteSyncStorageTransaction (list (string * (R * Z))) :=
  rows <- on_storage (query select_documents) ;;
  ret ((fun row => (row.1, (JSON_parse (state row.2),
                            lastChangedClock row.2))) <$> rows).

Definition documentIds : M SqlLiteSyncStorageTransaction (list string) :=
  rows <- on_storage (query select_documents) ;;
  ret rows.*1.

Definition getMetadata (key : string)
  : M SqlLiteSyncStorageTransaction (option string) :=
  on_storage (query (select_metadata_where_key key)).

Definition setMetadata (key value : string)
  : M SqlLiteSyncStorageTransaction unit :=
  on_storage (exec (insert_or_replace_into_metadata key value)).

Definition txn_tombstones
  : M SqlLiteSyncStorageTransaction (list (string * Z)) :=
  on_storage (query select_tombstones).

(** The part of [getChangesSince] below the two tests on [clock]: what is
    pushed on [changes] for a given [sinceClock]. *)
Definition collect_changes (sinceClock : Z)
  : M SqlLiteSyncStorageTransaction (list (TLPersistentStorageChange R)) :=
  tombstoneHistoryStartsAtClock <-
    on_storage _getTombstoneHistoryStartsAtClock ;;
  let wipe := bool_decide (sinceClock < tombstoneHistoryStartsAtClock) in
  let sinceClock := if wipe then -1 else sinceClock in
  let changes := if wipe then [WIPE_ALL] else [] in
  dbDocs <- on_storage
    (query (select_documents_where_lastChangedClock_gt sinceClock)) ;;
  let changes :=
    changes ++ ((fun row => PUT (JSON_parse (state row))) <$> dbDocs) in
  dbTombstones <- on_storage
    (query (select_tombstones_where_clock_gt sinceClock)) ;;
  let changes := changes ++ ((fun row => DELETE row.1) <$> dbTombstones) in
  ret changes.

Definition getChangesSince (sinceClock : Z)
  : M SqlLiteSyncStorageTransaction (list (TLPersistentStorageChange R)) :=
  clock <- txn_getClock ;;
  if decide (sinceClock = clock) then ret []
  else
    sinceClock <-
      (if decide (clock < sinceClock) then
         on_storage (modify (fun s =>
           with_console_error (console_error s ++ [(sinceClock, clock)]) s)) ;;;
         ret (-1)
       else ret sinceClock) ;;
    collect_changes sinceClock.

(** [callback(txn)] *)
Fixpoint call {T} (cb : Callback R T) : M SqlLiteSyncStorageTransaction T :=
  match cb with
  | Return t => ret t
  | ThrowError message => throw (JsError message)
  | TryCatch body handler => try_catch (call body) (fun e => call (handler e))
  | GetClock k => bind txn_getClock (fun c => call (k c))
  | GetDocument id k => bind (getDocument id) (fun d => call (k d))
  | SetDocument id st k => bind (setDocument id st) (fun _ => call k)
  | DeleteDocument id k => bind (deleteDocument id) (fun _ => call k)
  | Documents k => bind txn_documents (fun ds => call (k ds))
  | DocumentIds k => bind documentIds (fun ids => call (k ids))
  | GetMetadata key k => bind (getMetadata key) (fun v => call (k v))
  | SetMetadata key value k => bind (setMetadata key value) (fun _ => call k)
  | Tombstones k => bind txn_tombstones (fun ts => call (k ts))
  | GetChangesSince sinceClock k =>
      bind (getChangesSince sinceClock) (fun cs => call (k cs))
  end.

(** [new SqlLiteSyncStorageTransaction(this)] and the call of the body on
    it; the handle is dropped when the body is done. *)
Definition with_new_transaction {A} (body : M SqlLiteSyncStorageTransaction A)
  : M SqlLiteSyncStorage A :=
  fun s =>
    match body {| storage := s; _didIncrementClock := false |} with
    | (txn, r) => (storage txn, r)
    end.

Definition transaction {T} (source : string) (callback : Callback R T)
  : M SqlLiteSyncStorage (TLPersistentStorageTransactionResult T) :=
  clockBefore <- getClock ;;
  transactionSync (
    result <- with_new_transaction (state_transaction (call callback)) ;;
    clockAfter <- getClock ;;
    let didChange := bool_decide (clockBefore < clockAfter) in
    (if didChange then
       ls <- gets listeners ;;
       for_of ls (fun listener => call_listener listener source clockAfter)
     else ret tt) ;;;
    ret {| result_documentClock := clockAfter;
           didChange := bool_decide (clockBefore < clockAfter);
           result := result |}).

End Transaction.

(** ** Bodies that only read *)

(** No [setDocument], [deleteDocument] or [setMetadata] anywhere in the
    body. *)
Inductive reads_only {R T : Type} : Callback R T -> Prop :=
| ro_Return t : reads_only (Return t)
| ro_ThrowError message : reads_only (ThrowError message)
| ro_TryCatch body handler :
    reads_only body -> (forall e, reads_only (handler e)) ->
    reads_only (TryCatch body handler)
| ro_GetClock k : (forall c, reads_only (k c)) -> reads_only (GetClock k)
| ro_GetDocument id k :
    (forall d, reads_only (k d)) -> reads_only (GetDocument id k)
| ro_Documents k : (forall ds, reads_only (k ds)) -> reads_only (Documents k)
| ro_DocumentIds k :
    (forall ids, reads_only (k ids)) -> reads_only (DocumentIds k)
| ro_GetMetadata key k :
    (forall v, reads_only (k v)) -> reads_only (GetMetadata key k)
| ro_Tombstones k :
    (forall ts, reads_only (k ts)) -> reads_only (Tombstones k)
| ro_GetChangesSince sinceClock k :
    (forall cs, reads_only (k cs)) -> reads_only (GetChangesSince sinceClock k).

(** ** What a computation leaves related *)

(** [preserves rel m]: whatever the outcome of [m], the state it ends in is
    related to the one it started from. *)
Definition preserves {S A} (rel : S -> S -> Prop) (m : M S A) : Prop :=
  forall s, rel s (m s).1.

(** What every operation of the handle keeps: the listeners and the calls
    made to them, the one-way flag of the handle, and a [clock] table that
    was stepped exactly when the flag went up. *)
Definition handle_step (txn txn' : SqlLiteSyncStorageTransaction) : Prop :=
  listeners (storage txn') = listeners (storage txn) /\
  registrations (storage txn') = registrations (storage txn) /\
  calls (storage txn') = calls (storage txn) /\
  (_didIncrementClock txn = true -> _didIncrementClock txn' = true) /\
  clock (sql (storage txn')) =
    if negb (_didIncrementClock txn) && _didIncrementClock txn'
    then clock (update_documentClock_plus_1 (sql (storage txn)))
    else clock (sql (storage txn)).

(** What a reading operation keeps: everything but the console. *)
Definition handle_read (txn txn' : SqlLiteSyncStorageTransaction) : Prop :=
  sql (storage txn') = sql (storage txn) /\
  _didIncrementClock txn' = _didIncrementClock txn /\
  pruneTombstones_timer (storage txn') = pruneTombstones_timer (storage txn) /\
  listeners (storage txn') = listeners (storage txn) /\
  registrations (storage txn') = registrations (storage txn) /\
  calls (storage txn') = calls (storage txn).

(** What a run of the pruner keeps. *)
Definition prune_frame (s s' : SqlLiteSyncStorage) : Prop :=
  documents (sql s') = documents (sql s) /\
  metadata (sql s') = metadata (sql s) /\
  documentClock <$> clock (sql s') = documentClock <$> clock (sql s) /\
  listeners s' = listeners s /\
  calls s' = calls s.

(** The oldest clock in a tombstone table, if it has a row. *)
Definition oldest_clock (t : gmap string Z) : option Z :=
  match (map_to_list t).*2 with
  | [] => None
  | c :: cs => Some (foldr Z.min c cs)
  end.

(** The handle after the [console.error] line of [getChangesSince]. *)
Definition console_logged (sinceClock c : Z)
    (txn : SqlLiteSyncStorageTransaction) : SqlLiteSyncStorageTransaction :=
  {| storage :=
       with_console_error
         (console_error (storage txn) ++ [(sinceClock, c)]) (storage txn);
     _didIncrementClock := _didIncrementClock txn |}.

(** The test that a run of the pruner on [s] drops rows and cuts between
    the rows [kept] and [dropped]. *)
Definition cuts_between (s : SqlLiteSyncStorage) (kept dropped : string * Z)
  : bool :=
  let ts := select_tombstones_order_by_clock_desc (sql s) in
  let cutoff := find_cutoff ts in
  bool_decide (MAX_TOMBSTONES < select_count_tombstones (sql s))%nat
  && bool_decide (cutoff < length ts)%nat
  && bool_decide (ts !! (cutoff - 1)%nat = Some kept)
  && bool_decide (ts !! cutoff = Some dropped).

(** ** Stores used as examples *)

(** Records that are their own JSON text. *)
Global Instance text_record : UnknownRecord string :=
  {| JSON_stringify := fun r => r; JSON_parse := fun json => json |}.

(** The tables as the constructor fills them from a snapshot with these
    documents and tombstones (no id twice), an empty schema, and these two
    clocks. *)
Definition sql_with (ds : list (string * DocumentRow)) (ts : list (string * Z))
    (c w : Z) : SqlStorage :=
  {| documents := list_to_map ds; tombstones := list_to_map ts;
     metadata := {["schema" := "{}"]};
     clock := [{| documentClock := c; tombstoneHistoryStartsAtClock := w |}] |}.

Definition storage_with (db : SqlStorage) (ls : list Listener)
  : SqlLiteSyncStorage :=
  {| sql := db; listeners := ls; registrations := length ls;
     pruneTombstones_timer := false; console_error := []; calls := [] |}.

Definition fresh_handle (s : SqlLiteSyncStorage)
  : SqlLiteSyncStorageTransaction :=
  {| storage := s; _didIncrementClock := false |}.

Definition two_listeners : list Listener :=
  [{| registration := 0; callback := 7 |};
   {| registration := 1; callback := 9 |}].

(** An empty room at clock 0. *)
Definition empty_room : SqlLiteSyncStorage :=
  storage_with (sql_with [] [] 0 0) two_listeners.

(** A body that writes two documents and then throws. *)
Definition two_writes_then_throw : Callback string unit :=
  SetDocument "r:1" "one" (SetDocument "r:2" "two" (ThrowError "boom")).

(** A body that makes three mutations and returns. *)
Definition three_mutations : Callback string unit :=
  SetDocument "r:1" "one"
    (SetDocument "r:2" "two" (DeleteDocument "r:1" (Return tt))).

(** A body that reads the clock and the changes since 0. *)
Definition read_changes
  : Callback string (Z * list (TLPersistentStorageChange string)) :=
  GetClock (fun c => GetChangesSince 0 (fun cs => Return (c, cs))).

(** One transaction that writes a record, one that deletes it. *)
Definition write_one (id : string) (st : string) : Callback string unit :=
  SetDocument id st (Return tt).
Definition delete_one (id : string) : Callback string unit :=
  DeleteDocument id (Return tt).

(** A record is written, deleted, and written again, in three
    transactions on the empty room. *)
Definition write_delete_write
  : M SqlLiteSyncStorage (TLPersistentStorageTransactionResult unit) :=
  bind (transaction "s" (write_one "r:1" "one")) (fun _ =>
  bind (transaction "s" (delete_one "r:1")) (fun _ =>
  transaction "s" (write_one "r:1" "again"))).

(** The room of scenario S4: clock 12, a history that starts at 10, one
    tombstone at clock 11 and one document changed at clock 12. *)
Definition room_S4 : SqlLiteSyncStorage :=
  storage_with
    (sql_with [("r:2", {| state := "doc"; lastChangedClock := 12 |})]
              [("r:1", 11)] 12 10)
    two_listeners.

(** Scenario S3: three transactions on the empty room, then the changes
    since 0, since 1 and since 3. *)
Definition scenario_S3
  : M SqlLiteSyncStorage
      (TLPersistentStorageTransactionResult
         (list (TLPersistentStorageChange string) *
          list (TLPersistentStorageChange string) *
          list (TLPersistentStorageChange string))) :=
  bind (transaction "s" (write_one "r:1" "a")) (fun _ =>
  bind (transaction "s" (write_one "r:2" "b")) (fun _ =>
  bind (transaction "s" (delete_one "r:1")) (fun _ =>
  transaction "s"
    (GetChangesSince 0 (fun c0 =>
     GetChangesSince 1 (fun c1 =>
     GetChangesSince 3 (fun c3 => Return (c0, c1, c3)))))))).

(** A room at clock 5 with one document, one tombstone, and a history
    that starts at 0. *)
Definition room_at_5 : SqlLiteSyncStorage :=
  storage_with
    (sql_with [("r:2", {| state := "two"; lastChangedClock := 4 |})]
              [("r:1", 5)] 5 0)
    two_listeners.

(** A room at clock 5001 after 5001 transactions, each of which deleted
    one record: the tombstone of the [n]-th, ["t:n"], is at clock [n]. *)
Definition nth_tombstone (n : nat) : string * Z :=
  ("t:" +:+ NilEmpty.string_of_uint (Nat.to_uint n), Z.of_nat n).

Definition room_with_5001_tombstones : SqlLiteSyncStorage :=
  storage_with
    (sql_with [] (nth_tombstone <$> seq 1 (S MAX_TOMBSTONES))
              (Z.of_nat (S MAX_TOMBSTONES)) 0)
    two_listeners.

(** ** The constructor and the probe *)

(** The SQL side of the host's [DurableObjectStorage]: each of the four
    tables is there or not yet created. *)
Record DurableObjectStorage : Type := {
  table_documents : option (gmap string DocumentRow);
  table_tombstones : option (gmap string Z);
  table_metadata : option (gmap string string);
  table_clock : option (list ClockRow)
}.

(** The storage whose tables are those of [db]. *)
Definition stored (db : SqlStorage) : DurableObjectStorage :=
  {| table_documents := Some (documents db);
     table_tombstones := Some (tombstones db);
     table_metadata := Some (metadata db);
     table_clock := Some (clock db) |}.

(** The four [CREATE TABLE IF NOT EXISTS] (the index holds no data): a
    table that is there is kept, one that is not is created empty. *)
Definition create_tables_if_not_exists (storage : DurableObjectStorage)
  : SqlStorage :=
  {| documents := default ∅ (table_documents storage);
     tombstones := default ∅ (table_tombstones storage);
     metadata := default ∅ (table_metadata storage);
     clock := default [] (table_clock storage) |}.

(** [hasBeenInitialized]: [SELECT 1 FROM clock LIMIT 1] has a row; the
    exception of a missing table is caught and answered by [false]. *)
Definition hasBeenInitialized (storage : DurableObjectStorage) : bool :=
  match table_clock storage with
  | None => false
  | Some rows => bool_decide (0 < length (take 1 rows))%nat
  end.

(** [DELETE FROM documents], [DELETE FROM tombstones],
    [DELETE FROM metadata], [DELETE FROM clock] *)
Definition delete_all_from_documents (db : SqlStorage) : SqlStorage :=
  with_documents ∅ db.
Definition delete_all_from_tombstones (db : SqlStorage) : SqlStorage :=
  with_tombstones ∅ db.
Definition delete_all_from_metadata (db : SqlStorage) : SqlStorage :=
  with_metadata ∅ db.
Definition delete_all_from_clock (db : SqlStorage) : SqlStorage :=
  with_clock [] db.

(** [INSERT INTO documents (id, state, lastChangedClock) VALUES (?, ?, ?)]:
    a plain INSERT. *)
Definition insert_into_documents (id json : string) (c : Z) (db : SqlStorage)
  : Result SqlStorage :=
  match documents db !! id with
  | Some _ => Throw (SqlConstraintPrimaryKey "documents")
  | None =>
      Ok (with_documents
            (<[id := {| state := json; lastChangedClock := c |}]>
               (documents db)) db)
  end.

(** [INSERT INTO metadata (key, value) VALUES (?, ?)]: a plain INSERT. *)
Definition insert_into_metadata (key value : string) (db : SqlStorage)
  : Result SqlStorage :=
  match metadata db !! key with
  | Some _ => Throw (SqlConstraintPrimaryKey "metadata")
  | None => Ok (with_metadata (<[key := value]> (metadata db)) db)
  end.

(** [INSERT INTO clock (documentClock, tombstoneHistoryStartsAtClock)
     VALUES (?, ?)]: the table has no key, the row is added. *)
Definition insert_into_clock (c w : Z) (db : SqlStorage) : SqlStorage :=
  with_clock
    (clock db ++ [{| documentClock := c;
                     tombstoneHistoryStartsAtClock := w |}]) db.

(** One entry of [snapshot.documents]. *)
Record SnapshotDocument (R : Type) : Type := {
  snapshot_state : R;
  snapshot_lastChangedClock : Z
}.
Arguments snapshot_state {R} _.
Arguments snapshot_lastChangedClock {R} _.

(** Modelled from the spec: the type [RoomSnapshot] is declared in
    [TLSyncRoom], which is not among the sources.  A snapshot has an
    optional [documentClock], the optional [clock] of older snapshots, an
    optional [tombstoneHistoryStartsAtClock], its documents, an optional
    map of tombstones, and a schema. *)
Record RoomSnapshot (R Schema : Type) : Type := {
  snapshot_documentClock : option Z;
  snapshot_clock : option Z;
  snapshot_tombstoneHistoryStartsAtClock : option Z;
  snapshot_documents : list (SnapshotDocument R);
  snapshot_tombstones : option (gmap string Z);
  snapshot_schema : Schema
}.
Arguments snapshot_documentClock {R Schema} _.
Arguments snapshot_clock {R Schema} _.
Arguments snapshot_tombstoneHistoryStartsAtClock {R Schema} _.
Arguments snapshot_documents {R Schema} _.
Arguments snapshot_tombstones {R Schema} _.
Arguments snapshot_schema {R Schema} _.

(** The object as its field initialisers leave it, on the tables [db]. *)
Definition new_object (db : SqlStorage) : SqlLiteSyncStorage :=
  {| sql := db; listeners := []; registrations := 0;
     pruneTombstones_timer := false; console_error := []; calls := [] |}.

Section Constructor.
Context {R : Type} `{UnknownRecord R}.
(** [state.id], the JSON text of a schema, and [MetadataKeys.schema], a
    constant of [@tldraw/store]. *)
Context (record_id : R -> string).
Context {Schema : Type} (JSON_stringify_schema : Schema -> string).
Context (MetadataKeys_schema : string).
Local Open Scope js_scope.

(** [snapshot.documentClock ?? snapshot.clock ?? 0] *)
Definition resolve_documentClock (snapshot : RoomSnapshot R Schema) : Z :=
  match snapshot_documentClock snapshot with
  | Some c => c
  | None => default 0 (snapshot_clock snapshot)
  end.

(** [snapshot.tombstoneHistoryStartsAtClock ?? documentClock] *)
Definition resolve_tombstoneHistoryStartsAtClock
    (snapshot : RoomSnapshot R Schema) : Z :=
  default (resolve_documentClock snapshot)
          (snapshot_tombstoneHistoryStartsAtClock snapshot).

(** The body of the constructor under [if (snapshot)]. *)
Definition load_snapshot (snapshot : RoomSnapshot R Schema)
  : M SqlLiteSyncStorage unit :=
  let documentClock := resolve_documentClock snapshot in
  let tombstoneHistoryStartsAtClock :=
    resolve_tombstoneHistoryStartsAtClock snapshot in
  exec delete_all_from_documents ;;;
  exec delete_all_from_tombstones ;;;
  exec delete_all_from_metadata ;;;
  exec delete_all_from_clock ;;;
  for_of (snapshot_documents snapshot) (fun doc =>
    exec_checked
      (insert_into_documents (record_id (snapshot_state doc))
         (JSON_stringify (snapshot_state doc))
         (snapshot_lastChangedClock doc))) ;;;
  match snapshot_tombstones snapshot with
  | Some tombstones =>
      for_of (map_to_list tombstones) (fun entry =>
        exec_checked (insert_into_tombstones entry.1 entry.2))
  | None => ret tt
  end ;;;
  exec_checked
    (insert_into_metadata MetadataKeys_schema
       (JSON_stringify_schema (snapshot_schema snapshot))) ;;;
  exec (insert_into_clock documentClock tombstoneHistoryStartsAtClock).

(** [new SqlLiteSyncStorage(storage, snapshot)]: the object, with the
    tables as the constructor leaves them, and whether it returned. *)
Definition new_SqlLiteSyncStorage (storage : DurableObjectStorage)
    (snapshot : option (RoomSnapshot R Schema))
  : SqlLiteSyncStorage * Result unit :=
  let this := new_object (create_tables_if_not_exists storage) in
  match snapshot with
  | Some snapshot => load_snapshot snapshot this
  | None => (this, Ok tt)
  end.

(** The rows that the documents of a snapshot become. *)
Definition snapshot_row (doc : SnapshotDocument R) : string * DocumentRow :=
  (record_id (snapshot_state doc),
   {| state := JSON_stringify (snapshot_state doc);
      lastChangedClock := snapshot_lastChangedClock doc |}).

Definition snapshot_rows (snapshot : RoomSnapshot R Schema)
  : list (string * DocumentRow) :=
  snapshot_row <$> snapshot_documents snapshot.

End Constructor.

(** ** Bounds on the clocks of the rows *)

(** No document and no tombstone is ahead of [c]. *)
Definition rows_at_most (c : Z) (db : SqlStorage) : Prop :=
  (forall id doc, documents db !! id = Some doc -> lastChangedClock doc <= c) /\
  (forall id t, tombstones db !! id = Some t -> t <= c).

(** No tombstone is behind [w]. *)
Definition tombstones_at_least (w : Z) (db : SqlStorage) : Prop :=
  forall id t, tombstones db !! id = Some t -> w <= t.

(** Every row of [db'] is a row of [db] or carries the clock [c]. *)
Definition rows_old_or_at (c : Z) (db db' : SqlStorage) : Prop :=
  (forall id doc, documents db' !! id = Some doc ->
     documents db !! id = Some doc \/ lastChangedClock doc = c) /\
  (forall id t, tombstones db' !! id = Some t ->
     tombstones db !! id = Some t \/ t = c).

(** What an operation of the handle does to the rows when the clock was
    [c] before the transaction: the clock read is [c], or the one after
    [c] once the flag is up, and every row is an old one or, with the
    flag up, one at the clock after [c]. *)
Definition clock_is (c : Z) (txn : SqlLiteSyncStorageTransaction) : Prop :=
  select_documentClock_one (sql (storage txn))
  = Ok (c + if _didIncrementClock txn then 1 else 0).

Definition stamp_step (c : Z) (txn txn' : SqlLiteSyncStorageTransaction)
  : Prop :=
  handle_step txn txn' /\
  (clock_is c txn ->
   (forall id doc, documents (sql (storage txn')) !! id = Some doc ->
      documents (sql (storage txn)) !! id = Some doc \/
      (_didIncrementClock txn' = true /\ lastChangedClock doc = c + 1)) /\
   (forall id t, tombstones (sql (storage txn')) !! id = Some t ->
      tombstones (sql (storage txn)) !! id = Some t \/
      (_didIncrementClock txn' = true /\ t = c + 1))).

(** ** Bodies that write no document *)

(** No [setDocument] and no [deleteDocument] anywhere in the body;
    [setMetadata] is allowed. *)
Inductive writes_no_document {R T : Type} : Callback R T -> Prop :=
| wnd_Return t : writes_no_document (Return t)
| wnd_ThrowError message : writes_no_document (ThrowError message)
| wnd_TryCatch body handler :
    writes_no_document body -> (forall e, writes_no_document (handler e)) ->
    writes_no_document (TryCatch body handler)
| wnd_GetClock k :
    (forall c, writes_no_document (k c)) -> writes_no_document (GetClock k)
| wnd_GetDocument id k :
    (forall d, writes_no_document (k d)) ->
    writes_no_document (GetDocument id k)
| wnd_Documents k :
    (forall ds, writes_no_document (k ds)) -> writes_no_document (Documents k)
| wnd_DocumentIds k :
    (forall ids, writes_no_document (k ids)) ->
    writes_no_document (DocumentIds k)
| wnd_GetMetadata key k :
    (forall v, writes_no_document (k v)) ->
    writes_no_document (GetMetadata key k)
| wnd_SetMetadata key value k :
    writes_no_document k -> writes_no_document (SetMetadata key value k)
| wnd_Tombstones k :
    (forall ts, writes_no_document (k ts)) -> writes_no_document (Tombstones k)
| wnd_GetChangesSince sinceClock k :
    (forall cs, writes_no_document (k cs)) ->
    writes_no_document (GetChangesSince sinceClock k).

(** What such a body keeps: all but the [metadata] table and the
    console. *)
Definition handle_metadata (txn txn' : SqlLiteSyncStorageTransaction) : Prop :=
  documents (sql (storage txn')) = documents (sql (storage txn)) /\
  tombstones (sql (storage txn')) = tombstones (sql (storage txn)) /\
  clock (sql (storage txn')) = clock (sql (storage txn)) /\
  _didIncrementClock txn' = _didIncrementClock txn /\
  pruneTombstones_timer (storage txn') = pruneTombstones_timer (storage txn) /\
  listeners (storage txn') = listeners (storage txn) /\
  registrations (storage txn') = registrations (storage txn) /\
  calls (storage txn') = calls (storage txn).

(** ** The registrations in the set *)

(** Every closure in the set was made by an earlier [onChange]: its
    number is below the counter. *)
Definition registrations_fresh (s : SqlLiteSyncStorage) : Prop :=
  Forall (fun l => (registration l < registrations s)%nat) (listeners s).

(** ** More examples *)

(** A snapshot of two documents and one tombstone, in the older format
    with [clock] and without [tombstoneHistoryStartsAtClock]; a record
    is its own id. *)
Definition legacy_snapshot : RoomSnapshot string string :=
  {| snapshot_documentClock := None;
     snapshot_clock := Some 7;
     snapshot_tombstoneHistoryStartsAtClock := None;
     snapshot_documents :=
       [{| snapshot_state := "doc:a"; snapshot_lastChangedClock := 3 |};
        {| snapshot_state := "doc:b"; snapshot_lastChangedClock := 7 |}];
     snapshot_tombstones := Some {["doc:c" := 5]};
     snapshot_schema := "{}" |}.


(** A storage on which nothing was created yet. *)
Definition fresh_storage : DurableObjectStorage :=
  {| table_documents := None; table_tombstones := None;
     table_metadata := None; table_clock := None |}.

(** A body that only writes metadata. *)
Definition write_metadata : Callback string (option string) :=
  SetMetadata "owner" "ada" (GetMetadata "owner" Return).

(** A body that writes a document and reads it back. *)
Definition write_then_read : Callback string (option (string * Z)) :=
  SetDocument "r:1" "one" (GetDocument "r:1" Return).

(** A room at clock 2 whose 5001 tombstones were all written by one
    transaction, at clock 1. *)
Definition room_with_one_cohort : SqlLiteSyncStorage :=
  storage_with
    (sql_with []
       ((fun n => ((nth_tombstone n).1, 1)) <$> seq 1 (S MAX_TOMBSTONES))
       2 0)
    two_listeners.

(** * Proofs *)

(** ** The monad *)

Lemma bind_Ok {S A B} (m : M S A) (k : A -> M S B) s s' a :
  m s = (s', Ok a) -> bind m k s = k a s'.
Proof. unfold bind. by intros ->. Qed.


Section Preserves.
Context {S : Type} (rel : S -> S -> Prop).
Context `{!Reflexive rel, !Transitive rel}.

Lemma preserves_ret {A} (a : A) : preserves rel (ret a).
Proof. intros s. reflexivity. Qed.

Lemma preserves_throw {A} e : preserves rel (@throw S A e).
Proof. intros s. reflexivity. Qed.

Lemma preserves_gets {A} (f : S -> A) : preserves rel (gets f).
Proof. intros s. reflexivity. Qed.

Lemma preserves_modify (f : S -> S) :
  (forall s, rel s (f s)) -> preserves rel (modify f).
Proof. intros Hf s. apply Hf. Qed.

Lemma preserves_bind {A B} (m : M S A) (k : A -> M S B) :
  preserves rel m -> (forall a, preserves rel (k a)) ->
  preserves rel (bind m k).
Proof.
  intros Hm Hk s. unfold bind. specialize (Hm s).
  destruct (m s) as [s' [a|e]]; simpl in *; [|done].
  etransitivity; [exact Hm | apply Hk].
Qed.

Lemma preserves_try_catch {A} (m : M S A) (h : Error -> M S A) :
  preserves rel m -> (forall e, preserves rel (h e)) ->
  preserves rel (try_catch m h).
Proof.
  intros Hm Hh s. unfold try_catch. specialize (Hm s).
  destruct (m s) as [s' [a|e]]; simpl in *; [done|].
  etransitivity; [exact Hm | apply Hh].
Qed.

Lemma preserves_for_of {A} (xs : list A) (body : A -> M S unit) :
  (forall x, preserves rel (body x)) -> preserves rel (for_of xs body).
Proof.
  intros Hbody. induction xs as [|x xs IH]; simpl.
  - apply preserves_ret.
  - apply preserves_bind; auto.
Qed.

End Preserves.

(** ** The relations are preorders *)

Global Instance handle_step_refl : Reflexive handle_step.
Proof.
  intros txn. unfold handle_step. repeat split; auto.
  by destruct (_didIncrementClock txn).
Qed.

Global Instance handle_step_trans : Transitive handle_step.
Proof.
  intros t0 t1 t2 (L1 & N1 & C1 & F1 & K1) (L2 & N2 & C2 & F2 & K2).
  unfold handle_step. repeat split; try congruence; [tauto|].
  rewrite K2, K1.
  destruct (_didIncrementClock t0), (_didIncrementClock t1) eqn:E1,
    (_didIncrementClock t2) eqn:E2; simpl; try reflexivity.
  all: try (specialize (F1 eq_refl); discriminate).
  all: try (specialize (F2 eq_refl); discriminate).
  simpl in K1. by rewrite K1.
Qed.

Global Instance handle_read_refl : Reflexive handle_read.
Proof. by intros txn. Qed.

Global Instance handle_read_trans : Transitive handle_read.
Proof.
  intros t0 t1 t2 (A1 & B1 & C1 & D1 & E1 & F1) (A2 & B2 & C2 & D2 & E2 & F2).
  unfold handle_read. repeat split; congruence.
Qed.

Global Instance prune_frame_refl : Reflexive prune_frame.
Proof. by intros s. Qed.

Global Instance prune_frame_trans : Transitive prune_frame.
Proof.
  intros s0 s1 s2 (A1 & B1 & C1 & D1 & E1) (A2 & B2 & C2 & D2 & E2).
  unfold prune_frame. repeat split; congruence.
Qed.

(** A reading operation is in particular a step of the handle. *)
Lemma handle_read_step txn txn' : handle_read txn txn' -> handle_step txn txn'.
Proof.
  intros (Hsql & Hflag & _ & L & N & C). unfold handle_step.
  repeat split; auto; [congruence|].
  rewrite Hflag, Hsql. by destruct (_didIncrementClock txn).
Qed.

(** ** The operations of the handle, one by one *)

Ltac run_M :=
  unfold preserves, txn_getClock, getClock, _getTombstoneHistoryStartsAtClock,
    bind, ret, throw, gets, modify, on_storage, exec, exec_checked, query,
    query_one, pruneTombstones;
  simpl.

Ltac p_bind := apply preserves_bind; [tc_solve | |].
Ltac p_ret := apply preserves_ret; tc_solve.
Ltac p_throw := apply preserves_throw; tc_solve.

Section Operations.
Context {R : Type} `{UnknownRecord R}.

Lemma txn_getClock_read : preserves handle_read txn_getClock.
Proof. run_M. by intros txn. Qed.

Lemma getDocument_read id : preserves handle_read (getDocument id).
Proof.
  unfold getDocument. run_M. intros txn.
  by destruct (select_document_where_id id _).
Qed.

Lemma txn_documents_read : preserves handle_read txn_documents.
Proof. unfold txn_documents. run_M. by intros txn. Qed.

Lemma documentIds_read : preserves handle_read documentIds.
Proof. unfold documentIds. run_M. by intros txn. Qed.

Lemma getMetadata_read key : preserves handle_read (getMetadata key).
Proof. unfold getMetadata. run_M. by intros txn. Qed.

Lemma txn_tombstones_read : preserves handle_read txn_tombstones.
Proof. unfold txn_tombstones. run_M. by intros txn. Qed.

Lemma collect_changes_read sinceClock :
  preserves handle_read (collect_changes sinceClock).
Proof.
  unfold collect_changes. run_M. intros txn.
  by destruct (select_tombstoneHistoryStartsAtClock_one _).
Qed.

Lemma getChangesSince_read sinceClock :
  preserves handle_read (getChangesSince sinceClock).
Proof.
  unfold getChangesSince.
  p_bind; [apply txn_getClock_read |].
  intros c. destruct (decide (sinceClock = c)).
  { p_ret. }
  p_bind.
  - destruct (decide (c < sinceClock)).
    + run_M. by intros txn.
    + p_ret.
  - intros since'. apply collect_changes_read.
Qed.

Lemma getNextClock_step : preserves handle_step getNextClock.
Proof.
  unfold getNextClock. run_M. intros txn. unfold handle_step.
  destruct (_didIncrementClock txn) eqn:E; simpl; by rewrite ?E.
Qed.

Lemma setDocument_step id st : preserves handle_step (setDocument id st).
Proof.
  unfold setDocument. p_bind.
  - apply getNextClock_step.
  - intros c txn. run_M. unfold handle_step. simpl.
    by destruct (_didIncrementClock txn).
Qed.

Lemma deleteDocument_step id : preserves handle_step (deleteDocument id).
Proof.
  unfold deleteDocument. p_bind.
  - apply getNextClock_step.
  - intros c txn. run_M. unfold handle_step.
    destruct (insert_into_tombstones id c _) as [db|e] eqn:E; simpl.
    + unfold insert_into_tombstones in E. simpl in E.
      destruct (tombstones (sql (storage txn)) !! id); simplify_eq; simpl;
        by destruct (_didIncrementClock txn).
    + by destruct (_didIncrementClock txn).
Qed.

Lemma setMetadata_step key value :
  preserves handle_step (setMetadata key value).
Proof.
  unfold setMetadata. run_M. intros txn. unfold handle_step. simpl.
  by destruct (_didIncrementClock txn).
Qed.

Lemma read_is_step {A} (m : M SqlLiteSyncStorageTransaction A) :
  preserves handle_read m -> preserves handle_step m.
Proof. intros Hr txn. apply handle_read_step, Hr. Qed.

(** Every body is a step of the handle. *)
Lemma call_step {T} (cb : Callback R T) : preserves handle_step (call cb).
Proof.
  induction cb; simpl; try (p_bind; [| done]).
  - p_ret.
  - p_throw.
  - by apply preserves_try_catch; [tc_solve | |].
  - apply read_is_step, txn_getClock_read.
  - apply read_is_step, getDocument_read.
  - apply setDocument_step.
  - apply deleteDocument_step.
  - apply read_is_step, txn_documents_read.
  - apply read_is_step, documentIds_read.
  - apply read_is_step, getMetadata_read.
  - apply setMetadata_step.
  - apply read_is_step, txn_tombstones_read.
  - apply read_is_step, getChangesSince_read.
Qed.

(** A body that only reads leaves the tables and the flag alone. *)
Lemma call_reads_only {T} (cb : Callback R T) :
  reads_only cb -> preserves handle_read (call cb).
Proof.
  induction 1; simpl;
    try (p_bind; [| done]).
  - p_ret.
  - p_throw.
  - by apply preserves_try_catch; [tc_solve | |].
  - apply txn_getClock_read.
  - apply getDocument_read.
  - apply txn_documents_read.
  - apply documentIds_read.
  - apply getMetadata_read.
  - apply txn_tombstones_read.
  - apply getChangesSince_read.
Qed.

End Operations.

(** ** The transaction as a whole *)

Lemma for_of_call_listener ls source c s :
  for_of ls (fun l => call_listener l source c) s
  = (with_calls (calls s ++ (notification source c <$> ls)) s, Ok tt).
Proof.
  revert s. induction ls as [|l ls IH]; intros s; simpl.
  - rewrite app_nil_r. by destruct s.
  - unfold bind, call_listener, modify. rewrite IH. simpl.
    by rewrite <- app_assoc.
Qed.

Section Whole.
Context {R : Type} `{UnknownRecord R}.

(** The clock that [getClock] reads after a body, from the flag it left. *)
Lemma clock_after_call {T} (cb : Callback R T) s row rest :
  clock (sql s) = row :: rest ->
  let txn' := (call cb (fresh_handle s)).1 in
  select_documentClock_one (sql (storage txn'))
  = Ok (documentClock row + if _didIncrementClock txn' then 1 else 0).
Proof.
  intros Hclock txn'. destruct (call_step cb (fresh_handle s))
    as (_ & _ & _ & _ & K).
  fold txn' in K. unfold select_documentClock_one. rewrite K. simpl.
  rewrite Hclock. destruct (_didIncrementClock txn'); simpl; f_equal; lia.
Qed.

(** [transaction] on a store whose [clock] table has its row, case by
    case on what the body does. *)
Lemma transaction_outcome {T} source (cb : Callback R T) s row rest :
  clock (sql s) = row :: rest ->
  let clockBefore := documentClock row in
  transaction source cb s =
  match call cb (fresh_handle s) with
  | (txn', Throw e) => (with_sql (sql s) (storage txn'), Throw e)
  | (txn', Ok t) =>
      let clockAfter :=
        documentClock row + if _didIncrementClock txn' then 1 else 0 in
      ((if bool_decide (clockBefore < clockAfter)
        then with_calls
               (calls (storage txn')
                ++ (notification source clockAfter <$> listeners (storage txn')))
               (storage txn')
        else storage txn'),
       Ok {| result_documentClock := clockAfter;
             didChange := bool_decide (clockBefore < clockAfter);
             result := t |})
  end.
Proof.
  intros Hclock clockBefore.
  pose proof (clock_after_call cb s row rest Hclock) as Hafter.
  unfold transaction, bind at 1, getClock at 1, query_one,
    select_documentClock_one at 1.
  rewrite Hclock. unfold transactionSync, bind at 1, with_new_transaction,
    state_transaction. fold (fresh_handle s).
  destruct (call cb (fresh_handle s)) as [txn' [t|e]]; simpl in *; [|done].
  unfold bind at 1, getClock, query_one. rewrite Hafter.
  subst clockBefore.
  destruct (bool_decide (documentClock row < _)); simpl.
  - unfold bind, gets, ret. by rewrite for_of_call_listener.
  - done.
Qed.

End Whole.

(** ** The change feed *)

Section Feed.
Context {R : Type} `{UnknownRecord R}.

(** What [collect_changes] pushes, on a store whose [clock] table has its
    row: the state is left alone. *)
Lemma collect_changes_eq txn row rest sinceClock :
  clock (sql (storage txn)) = row :: rest ->
  let wipe :=
    bool_decide (sinceClock < tombstoneHistoryStartsAtClock row) in
  let since' := if wipe then -1 else sinceClock in
  collect_changes sinceClock txn =
  (txn,
   Ok ((if wipe then [WIPE_ALL] else [])
       ++ ((fun doc => PUT (JSON_parse (state doc))) <$>
             select_documents_where_lastChangedClock_gt since'
               (sql (storage txn)))
       ++ ((fun t : string * Z => DELETE t.1) <$>
             select_tombstones_where_clock_gt since' (sql (storage txn))))).
Proof.
  intros Hclock. unfold collect_changes. run_M.
  unfold select_tombstoneHistoryStartsAtClock_one. rewrite Hclock. simpl.
  destruct txn as [st flag]. simpl. by rewrite <- app_assoc.
Qed.

Lemma getChangesSince_eq txn row rest sinceClock :
  clock (sql (storage txn)) = row :: rest ->
  getChangesSince sinceClock txn =
  if decide (sinceClock = documentClock row) then (txn, Ok [])
  else if decide (documentClock row < sinceClock)
       then collect_changes (-1)
              (console_logged sinceClock (documentClock row) txn)
       else collect_changes sinceClock txn.
Proof.
  intros Hclock. unfold getChangesSince, bind at 1, txn_getClock, on_storage,
    getClock, query_one, select_documentClock_one.
  rewrite Hclock. destruct txn as [st flag]. simpl.
  destruct (decide (sinceClock = documentClock row)); [done|].
  destruct (decide (documentClock row < sinceClock)); by run_M.
Qed.

Lemma WIPE_ALL_not_PUT {A} (f : A -> R) (l : list A) :
  WIPE_ALL ∉ (fun a => PUT (f a)) <$> l.
Proof. intros (a & Ha & _)%list_elem_of_fmap. discriminate. Qed.

Lemma WIPE_ALL_not_DELETE {A} (f : A -> string) (l : list A) :
  @WIPE_ALL R ∉ (fun a => DELETE (f a)) <$> l.
Proof. intros (a & Ha & _)%list_elem_of_fmap. discriminate. Qed.

Lemma filter_WIPE_ALL_PUT {A} (f : A -> R) (l : list A) :
  filter (fun c => is_WIPE_ALL c) ((fun a => PUT (f a)) <$> l) = [].
Proof. induction l as [|a l IH]; [done|]. simpl. by rewrite filter_cons. Qed.

Lemma filter_WIPE_ALL_DELETE {A} (f : A -> string) (l : list A) :
  filter (fun c => is_WIPE_ALL c) ((fun a => @DELETE R (f a)) <$> l) = [].
Proof. induction l as [|a l IH]; [done|]. simpl. by rewrite filter_cons. Qed.

End Feed.

(** ** The pruner *)

Global Instance clock_desc_trans : Transitive clock_desc.
Proof. unfold clock_desc. intros a b c ? ?. lia. Qed.

Global Instance clock_desc_total : Total clock_desc.
Proof. unfold clock_desc. intros a b. lia. Qed.

(** In a sorted list an earlier row is related to a later one. *)
Lemma StronglySorted_lookup {A} (rel : relation A) (l : list A) i j a b :
  StronglySorted rel l -> (i < j)%nat ->
  l !! i = Some a -> l !! j = Some b -> rel a b.
Proof.
  intros Hs. revert i j. induction Hs as [|x l Hs IH Hall]; intros i j Hij.
  { by rewrite lookup_nil. }
  destruct j as [|j]; [lia|]. destruct i as [|i]; simpl.
  - intros [= ->] Hb. rewrite Forall_forall in Hall.
    apply Hall. by eapply list_elem_of_lookup_2.
  - apply IH. lia.
Qed.

(** The loop stops at or after the cutoff it starts from, on an index where
    its test fails. *)
Lemma find_cutoff_loop_spec turns (ts : list (string * Z)) cutoff :
  (length ts - cutoff <= turns)%nat ->
  let k := find_cutoff_loop turns ts cutoff in
  (cutoff <= k)%nat /\
  ~ ((k < length ts)%nat /\ snd <$> ts !! (k - 1)%nat = snd <$> ts !! k).
Proof.
  revert cutoff. induction turns as [|turns IH]; intros cutoff Hturns; simpl.
  - split; [done|]. intros [? _]. lia.
  - destruct (decide _) as [Hgo|Hstop].
    + destruct (IH (S cutoff)) as [Hle Hexit]; [lia|]. split; [lia|done].
    + by split.
Qed.

Lemma find_cutoff_spec (ts : list (string * Z)) :
  let k := find_cutoff ts in
  (TOMBSTONE_PRUNE_BUFFER_SIZE <= k)%nat /\
  ~ ((k < length ts)%nat /\ snd <$> ts !! (k - 1)%nat = snd <$> ts !! k).
Proof. apply find_cutoff_loop_spec. lia. Qed.

(** The loop of [DELETE]s: the rows named are gone, the others stay, and
    nothing else moves. *)
Lemma for_of_delete_from_tombstones ids s :
  exists s',
    for_of ids (fun id => exec (delete_from_tombstones id)) s = (s', Ok tt) /\
    (forall id, tombstones (sql s') !! id
                = if decide (id ∈ ids) then None
                  else tombstones (sql s) !! id) /\
    clock (sql s') = clock (sql s) /\
    prune_frame s s'.
Proof.
  revert s. induction ids as [|id0 ids IH]; intros s; cbn [for_of].
  - exists s. split; [done|]. split; [|done]. intros id.
    case_decide as Hin; [by apply elem_of_nil in Hin|done].
  - rewrite (bind_Ok _ _ s (with_sql (delete_from_tombstones id0 (sql s)) s) tt)
      by done.
    destruct (IH (with_sql (delete_from_tombstones id0 (sql s)) s))
      as (s' & -> & Hlook & Hclock & Hframe).
    exists s'. split; [done|]. split; [|split; [done|]].
    + intros id. rewrite Hlook. cbn [sql with_sql delete_from_tombstones
        tombstones with_tombstones].
      destruct (decide (id = id0)) as [->|Hne].
      * rewrite lookup_delete_eq.
        repeat case_decide; try done; exfalso; set_solver.
      * rewrite lookup_delete_ne by done.
        case_decide as Hin; case_decide as Hin'; try done; exfalso.
        -- apply Hin'. by apply list_elem_of_further.
        -- apply elem_of_cons in Hin' as [?|?]; done.
    + destruct Hframe as (? & ? & ? & ? & ?). by repeat split.
Qed.

(** The oldest clock of a table is the clock of one of its rows and is
    below no other. *)
Lemma foldr_min_spec (c : Z) (cs : list Z) :
  foldr Z.min c cs ∈ c :: cs /\
  forall c', c' ∈ c :: cs -> foldr Z.min c cs <= c'.
Proof.
  induction cs as [|c0 cs [IHin IHle]]; simpl.
  - split; [apply list_elem_of_here|]. intros c' ->%list_elem_of_singleton. lia.
  - split.
    + destruct (Z.min_spec c0 (foldr Z.min c cs)) as [[_ ->]|[_ ->]].
      * apply list_elem_of_further, list_elem_of_here.
      * apply elem_of_cons in IHin as [->|Hin].
        -- apply list_elem_of_here.
        -- by do 2 apply list_elem_of_further.
    + intros c' Hc'. apply elem_of_cons in Hc' as [->|Hc'].
      * specialize (IHle c (list_elem_of_here _ _)). lia.
      * apply elem_of_cons in Hc' as [->|Hc']; [lia|].
        specialize (IHle c' (list_elem_of_further _ _ _ Hc')). lia.
Qed.

Lemma oldest_clock_Some (t : gmap string Z) c :
  oldest_clock t = Some c ->
  (exists id, t !! id = Some c) /\ forall id c', t !! id = Some c' -> c <= c'.
Proof.
  unfold oldest_clock. destruct ((map_to_list t).*2) as [|c0 cs] eqn:E;
    [done|]. intros [= <-].
  destruct (foldr_min_spec c0 cs) as [Hin Hle]. rewrite <- E in Hin, Hle.
  split.
  - apply list_elem_of_fmap in Hin as ([id c] & -> & Hin).
    exists id. by apply elem_of_map_to_list.
  - intros id c' Hc'. apply Hle. apply list_elem_of_fmap.
    exists (id, c'). split; [done|]. by apply elem_of_map_to_list.
Qed.

Lemma oldest_clock_None (t : gmap string Z) : oldest_clock t = None -> t = ∅.
Proof.
  unfold oldest_clock. destruct ((map_to_list t).*2) as [|c0 cs] eqn:E;
    [|done]. intros _. apply fmap_nil_inv in E.
  by apply map_to_list_empty_iff.
Qed.

(** The rows of [ORDER BY clock DESC] are the rows of the table, newest
    first. *)
Lemma select_tombstones_order_by_clock_desc_lookup db i j a b :
  let ts := select_tombstones_order_by_clock_desc db in
  (i <= j)%nat -> ts !! i = Some a -> ts !! j = Some b -> b.2 <= a.2.
Proof.
  intros ts Hij Ha Hb. destruct (decide (i = j)) as [->|Hne].
  - rewrite Ha in Hb. injection Hb as ->. lia.
  - eapply (StronglySorted_lookup clock_desc ts i j); [|lia|done..].
    apply StronglySorted_merge_sort; apply _.
Qed.

Lemma select_tombstones_order_by_clock_desc_elem_of db id c :
  (id, c) ∈ select_tombstones_order_by_clock_desc db <->
  tombstones db !! id = Some c.
Proof.
  unfold select_tombstones_order_by_clock_desc.
  rewrite merge_sort_Permutation. apply elem_of_map_to_list.
Qed.

(** A run of the pruner that drops rows: the watermark becomes the clock
    of the row at the cutoff, the newest one dropped; the rows kept are
    the rows above that clock, and the row before the cutoff is one. *)
Lemma pruneTombstones_run_overflow s :
  let ts := select_tombstones_order_by_clock_desc (sql s) in
  let cutoff := find_cutoff ts in
  (MAX_TOMBSTONES < select_count_tombstones (sql s))%nat ->
  (cutoff < length ts)%nat ->
  exists kept dropped s',
    ts !! (cutoff - 1)%nat = Some kept /\
    ts !! cutoff = Some dropped /\
    pruneTombstones_run s = (s', Ok tt) /\
    clock (sql s')
      = clock (update_tombstoneHistoryStartsAtClock dropped.2 (sql s)) /\
    (forall id c,
       tombstones (sql s') !! id = Some c <->
       tombstones (sql s) !! id = Some c /\ dropped.2 < c) /\
    (forall id c, tombstones (sql s') !! id = Some c -> kept.2 <= c) /\
    tombstones (sql s) !! dropped.1 = Some dropped.2 /\
    tombstones (sql s') !! kept.1 = Some kept.2 /\
    dropped.2 < kept.2.
Proof.
  intros ts cutoff Hcount Hcut.
  destruct (find_cutoff_spec ts) as [Hbuf Hexit]. fold cutoff in Hbuf, Hexit.
  unfold TOMBSTONE_PRUNE_BUFFER_SIZE in Hbuf.
  destruct (lookup_lt_is_Some_2 ts cutoff Hcut) as [dropped Hdropped].
  destruct (lookup_lt_is_Some_2 ts (cutoff - 1)) as [kept Hkept]; [lia|].
  assert (Hgap : dropped.2 < kept.2).
  { pose proof (select_tombstones_order_by_clock_desc_lookup
                  (sql s) (cutoff - 1) cutoff kept dropped) as Hle.
    simpl in Hle. specialize (Hle ltac:(lia) Hkept Hdropped).
    assert (kept.2 <> dropped.2); [|lia].
    intros Heq. apply Hexit. split; [done|].
    rewrite Hkept, Hdropped. simpl. by rewrite Heq. }
  set (s1 := with_sql
               (update_tombstoneHistoryStartsAtClock dropped.2 (sql s)) s).
  destruct (for_of_delete_from_tombstones (drop cutoff ts).*1 s1)
    as (s' & Hrun & Hlook & Hclock & _).
  assert (Hiff : forall id c,
    tombstones (sql s') !! id = Some c <->
    tombstones (sql s) !! id = Some c /\ dropped.2 < c).
  { intros id c. rewrite Hlook. simpl. split.
    - case_decide as Hin; [done|]. intros Hm. split; [done|].
      apply select_tombstones_order_by_clock_desc_elem_of in Hm.
      apply list_elem_of_lookup_1 in Hm as [i Hi]. fold ts in Hi.
      destruct (decide (i < cutoff)%nat) as [Hlt|Hge].
      + pose proof (select_tombstones_order_by_clock_desc_lookup
                      (sql s) i (cutoff - 1) (id, c) kept) as Hle.
        simpl in Hle. specialize (Hle ltac:(lia) Hi Hkept). lia.
      + exfalso. apply Hin. apply list_elem_of_fmap. exists (id, c).
        split; [done|]. apply list_elem_of_lookup.
        exists (i - cutoff)%nat. rewrite lookup_drop. rewrite <- Hi.
        f_equal. lia.
    - intros [Hm Hc]. rewrite decide_False; [done|].
      intros ([id' c'] & -> & Hin)%list_elem_of_fmap.
      apply list_elem_of_lookup in Hin as [j Hj]. rewrite lookup_drop in Hj.
      simpl in *.
      assert (Hm' : tombstones (sql s) !! id' = Some c').
      { apply select_tombstones_order_by_clock_desc_elem_of.
        by eapply list_elem_of_lookup_2. }
      assert (c' = c) as -> by congruence.
      pose proof (select_tombstones_order_by_clock_desc_lookup
                    (sql s) cutoff (cutoff + j) dropped (id', c)) as Hle.
      simpl in Hle. specialize (Hle ltac:(lia) Hdropped Hj). lia. }
  assert (Hkeep : forall id c,
    tombstones (sql s') !! id = Some c -> kept.2 <= c).
  { intros id c. rewrite Hlook. simpl.
    case_decide as Hin; [done|]. intros Hm.
    apply select_tombstones_order_by_clock_desc_elem_of in Hm.
    apply list_elem_of_lookup_1 in Hm as [i Hi]. fold ts in Hi.
    destruct (decide (i < cutoff)%nat) as [Hlt|Hge].
    - pose proof (select_tombstones_order_by_clock_desc_lookup
                    (sql s) i (cutoff - 1) (id, c) kept) as Hle.
      simpl in Hle. by specialize (Hle ltac:(lia) Hi Hkept).
    - exfalso. apply Hin. apply list_elem_of_fmap. exists (id, c).
      split; [done|]. apply list_elem_of_lookup.
      exists (i - cutoff)%nat. rewrite lookup_drop. rewrite <- Hi.
      f_equal. lia. }
  assert (Hmem : forall row, row ∈ ts -> tombstones (sql s) !! row.1 = Some row.2).
  { intros [id c] Hin.
    by apply select_tombstones_order_by_clock_desc_elem_of. }
  exists kept, dropped, s'.
  split; [done|]. split; [done|].
  split; [|split; [done|split; [done|split; [done|split; [|split; [|done]]]]]].
  - unfold pruneTombstones_run.
    rewrite (bind_Ok _ _ s s (select_count_tombstones (sql s))) by done.
    rewrite decide_True by done.
    rewrite (bind_Ok _ _ s s ts) by done. cbn zeta. fold cutoff.
    rewrite Hdropped.
    rewrite (bind_Ok _ _ s s dropped.2) by done.
    rewrite (bind_Ok _ _ s s1 tt) by done.
    by rewrite decide_True by done.
  - apply Hmem. by eapply list_elem_of_lookup_2.
  - apply Hiff. split; [|done]. apply Hmem. by eapply list_elem_of_lookup_2.
Qed.

(** The same run, read off the store it leaves. *)
Lemma pruneTombstones_run_drops s :
  let ts := select_tombstones_order_by_clock_desc (sql s) in
  let cutoff := find_cutoff ts in
  clock (sql s) <> [] ->
  (MAX_TOMBSTONES < select_count_tombstones (sql s))%nat ->
  (cutoff < length ts)%nat ->
  exists kept dropped s',
    ts !! (cutoff - 1)%nat = Some kept /\
    ts !! cutoff = Some dropped /\
    pruneTombstones_run s = (s', Ok tt) /\
    _getTombstoneHistoryStartsAtClock s' = (s', Ok dropped.2) /\
    tombstones (sql s) !! dropped.1 = Some dropped.2 /\
    tombstones (sql s') !! dropped.1 = None /\
    (forall id c,
       tombstones (sql s') !! id = Some c <->
       tombstones (sql s) !! id = Some c /\ dropped.2 < c) /\
    oldest_clock (tombstones (sql s')) = Some kept.2 /\
    dropped.2 < kept.2.
Proof.
  intros ts cutoff Hclock Hcount Hcut.
  destruct (pruneTombstones_run_overflow s Hcount Hcut)
    as (kept & dropped & s' & Hkept & Hdropped & Hrun & Hw & Hiff & Hkeep
        & Hold & Hnew & Hgap).
  fold ts cutoff in Hkept, Hdropped.
  exists kept, dropped, s'.
  split; [done|]. split; [done|]. split; [done|].
  split; [|split; [done|split; [|split; [done|split; [|done]]]]].
  - unfold _getTombstoneHistoryStartsAtClock, query_one,
      select_tombstoneHistoryStartsAtClock_one. rewrite Hw. simpl.
    by destruct (clock (sql s)).
  - destruct (tombstones (sql s') !! dropped.1) as [c|] eqn:E; [|done].
    apply Hiff in E as [E ?]. rewrite Hold in E. injection E as <-. lia.
  - destruct (oldest_clock (tombstones (sql s'))) as [oldest|] eqn:Holdest.
    + apply oldest_clock_Some in Holdest as [[id Hid] Hmin].
      apply Hkeep in Hid. specialize (Hmin _ _ Hnew). f_equal. lia.
    + apply oldest_clock_None in Holdest. rewrite Holdest in Hnew.
      by rewrite lookup_empty in Hnew.
Qed.

(** ** The scenarios of the specification *)

(** S1 and S2: a write at clock 1, read back; then a delete at clock 2. *)
Example scenario_S1 :
  (transaction "s" (write_one "r:1" "a") empty_room).2
    = Ok {| result_documentClock := 1; didChange := true; result := tt |} /\
  (transaction "s" (GetDocument "r:1" Return)
     (transaction "s" (write_one "r:1" "a") empty_room).1).2
    = Ok {| result_documentClock := 1; didChange := false;
            result := Some ("a", 1) |}.
Proof. vm_compute. by split. Qed.

Example scenario_S2 :
  let s1 := (transaction "s" (write_one "r:1" "a") empty_room).1 in
  let s2 := (transaction "s" (delete_one "r:1") s1).1 in
  documents (sql s2) = ∅ /\
  map_to_list (tombstones (sql s2)) = [("r:1", 2)] /\
  clock (sql s2)
    = [{| documentClock := 2; tombstoneHistoryStartsAtClock := 0 |}] /\
  pruneTombstones_timer s2 = true.
Proof. vm_compute. by repeat split. Qed.

Example scenario_S3_changes :
  (scenario_S3 empty_room).2
  = Ok {| result_documentClock := 3; didChange := false;
          result := ([PUT "b"; DELETE "r:1"], [PUT "b"; DELETE "r:1"], []) |}.
Proof. vm_compute. reflexivity. Qed.

Example scenario_S4 :
  (getChangesSince 5 (fresh_handle room_S4)).2
  = Ok [WIPE_ALL; PUT "doc"; DELETE "r:1"].
Proof. vm_compute. reflexivity. Qed.

(** A transaction that writes calls both listeners of the room, in the
    order of their registration, with its source and the new clock; one
    that only reads calls none. *)
Example scenario_listeners :
  calls (transaction "sync" three_mutations empty_room).1
    = [{| notified := 7; arg_source := "sync"; arg_documentClock := 1 |};
       {| notified := 9; arg_source := "sync"; arg_documentClock := 1 |}] /\
  calls (transaction "sync" read_changes empty_room).1 = [].
Proof. vm_compute. by split. Qed.

(** ** The set of listeners *)

Lemma onChange_listeners cb s :
  listeners (onChange cb s).1
  = listeners s ++ [{| registration := registrations s; callback := cb |}].
Proof. reflexivity. Qed.

(** Disposing of a registration takes it out, and nothing else, when the
    registrations in the set are older than the counter. *)
Lemma onChange_unsubscribe cb s :
  Forall (fun l => (registration l < registrations s)%nat) (listeners s) ->
  listeners (bind (onChange cb) unsubscribe s).1 = listeners s.
Proof.
  intros Hold. unfold bind, onChange, unsubscribe, gets, modify, ret. simpl.
  rewrite filter_app, filter_cons_False, filter_nil, app_nil_r by naive_solver.
  induction Hold as [|l ls Hl _ IH]; [done|].
  rewrite filter_cons_True; [by rewrite IH|].
  intros ->. simpl in Hl. lia.
Qed.

(** * The claims *)

Section Claims.
Context {R : Type} `{UnknownRecord R}.

(** C4.  When the body of a transaction throws, [transaction] throws the
    same error to its caller, the tables are what they were before the
    call, and no listener was called (the set of listeners is untouched
    as well).  The store is one whose [clock] table has its row, so that
    the body is reached. *)
Theorem transaction_body_throws {T} source (cb : Callback R T) s txn' e :
  clock (sql s) <> [] ->
  call cb (fresh_handle s) = (txn', Throw e) ->
  exists s',
    transaction source cb s = (s', Throw e) /\
    sql s' = sql s /\
    calls s' = calls s /\
    listeners s' = listeners s.
Proof.
  intros Hclock Hbody.
  destruct (clock (sql s)) as [|row rest] eqn:E; [done|].
  pose proof (transaction_outcome source cb s row rest E) as Hout.
  simpl in Hout. rewrite Hbody in Hout.
  destruct (call_step cb (fresh_handle s)) as (L & _ & C & _).
  rewrite Hbody in L, C. simpl in L, C.
  eexists. split; [exact Hout|]. by simpl.
Qed.

(** C6.  A transaction that returns read the clock before the body, and
    the clock it returns is that clock or the next one: the [clock] table
    is what it was, or was stepped once, however many [setDocument] and
    [deleteDocument] calls the body made. *)
Theorem transaction_increments_clock_at_most_once
    {T} source (cb : Callback R T) s s' r :
  transaction source cb s = (s', Ok r) ->
  exists clockBefore,
    getClock s = (s, Ok clockBefore) /\
    getClock s' = (s', Ok (result_documentClock r)) /\
    clockBefore <= result_documentClock r <= clockBefore + 1 /\
    (clock (sql s') = clock (sql s) \/
     clock (sql s') = clock (update_documentClock_plus_1 (sql s))).
Proof.
  intros Htx.
  destruct (clock (sql s)) as [|row rest] eqn:E.
  { unfold transaction, bind, getClock, query_one,
      select_documentClock_one in Htx. by rewrite E in Htx. }
  pose proof (transaction_outcome source cb s row rest E) as Hout.
  pose proof (clock_after_call cb s row rest E) as Hafter.
  destruct (call_step cb (fresh_handle s)) as (_ & _ & _ & _ & K).
  simpl in Hout, Hafter, K. rewrite Htx in Hout.
  destruct (call cb (fresh_handle s)) as [txn' [t|e]]; [|done].
  simpl in *. injection Hout as -> ->. simpl.
  exists (documentClock row). unfold getClock, query_one.
  split; [by unfold select_documentClock_one; rewrite E|].
  assert (Hsql : forall b l,
    sql (if b : bool then with_calls l (storage txn') else storage txn')
    = sql (storage txn')) by (by intros []).
  rewrite Hsql, Hafter. split; [done|].
  rewrite K. destruct (_didIncrementClock txn'); simpl;
    (split; [lia | by auto]).
Qed.

(** C5.  The listeners are called exactly when [didChange] is true, which
    is exactly when the clock read after the body exceeds the clock read
    before the call; each listener is then called once, in the order of
    the set, with the source of the caller and the clock read after the
    body.  A transaction that throws calls none, and neither does one
    whose body only reads. *)
Theorem transaction_calls_listeners_iff_didChange
    {T} source (cb : Callback R T) s :
  let s' := (transaction source cb s).1 in
  match (transaction source cb s).2 with
  | Ok r =>
      exists clockBefore,
        getClock s = (s, Ok clockBefore) /\
        getClock s' = (s', Ok (result_documentClock r)) /\
        didChange r = bool_decide (clockBefore < result_documentClock r) /\
        calls s' =
          calls s ++
          (if didChange r
           then notification source (result_documentClock r) <$> listeners s
           else [])
  | Throw _ => calls s' = calls s
  end /\
  (reads_only cb -> calls s' = calls s).
Proof.
  intros s'. subst s'.
  destruct (clock (sql s)) as [|row rest] eqn:E.
  { unfold transaction, bind, getClock, query_one, select_documentClock_one.
    by rewrite E. }
  rewrite (transaction_outcome source cb s row rest E).
  pose proof (clock_after_call cb s row rest E) as Hafter.
  destruct (call_step cb (fresh_handle s)) as (L & _ & C & _).
  pose proof (call_reads_only cb) as Hro.
  simpl in Hafter, L, C.
  destruct (call cb (fresh_handle s)) as [txn' [t|e]] eqn:Hbody; simpl in *.
  - assert (Hsql : forall b l,
      sql (if b : bool then with_calls l (storage txn') else storage txn')
      = sql (storage txn')) by (by intros []).
    split.
    + exists (documentClock row). unfold getClock, query_one.
      rewrite Hsql, Hafter.
      split; [by unfold select_documentClock_one; rewrite E|].
      split; [done|]. split; [done|].
      destruct (bool_decide _); simpl; [by rewrite C, L|].
      by rewrite app_nil_r.
    + intros Hcb. destruct (Hro Hcb (fresh_handle s)) as (_ & F & _).
      rewrite Hbody in F. simpl in F. rewrite F.
      rewrite bool_decide_eq_false_2 by lia. done.
  - done.
Qed.

End Claims.

(** ** The claims on the example stores *)

Lemma transaction_body_throws_witness :
  clock (sql empty_room) <> [] /\
  exists s',
    transaction "s" two_writes_then_throw empty_room
      = (s', Throw (JsError "boom")) /\
    sql s' = sql empty_room /\
    calls s' = calls empty_room /\
    listeners s' = listeners empty_room.
Proof.
  split; [done|].
  apply (transaction_body_throws "s" two_writes_then_throw empty_room
           (call two_writes_then_throw (fresh_handle empty_room)).1).
  - done.
  - vm_compute. reflexivity.
Defined.

Lemma transaction_increments_clock_at_most_once_witness :
  exists s' r,
    transaction "s" three_mutations empty_room = (s', Ok r) /\
    result_documentClock r = 1 /\
    exists clockBefore,
      getClock empty_room = (empty_room, Ok clockBefore) /\
      getClock s' = (s', Ok (result_documentClock r)) /\
      clockBefore <= result_documentClock r <= clockBefore + 1 /\
      (clock (sql s') = clock (sql empty_room) \/
       clock (sql s')
       = clock (update_documentClock_plus_1 (sql empty_room))).
Proof.
  destruct (transaction "s" three_mutations empty_room)
    as [s' [r|e]] eqn:E.
  - exists s', r. split; [done|]. split.
    + vm_compute in E. by injection E as _ <-.
    + exact (transaction_increments_clock_at_most_once _ _ _ _ _ E).
  - vm_compute in E. discriminate.
Defined.

Lemma transaction_calls_listeners_iff_didChange_witness :
  reads_only read_changes /\
  calls (transaction "s" read_changes room_at_5).1 = calls room_at_5.
Proof.
  assert (Hro : reads_only read_changes) by (repeat constructor).
  split; [exact Hro|].
  exact (proj2 (transaction_calls_listeners_iff_didChange
                  "s" read_changes room_at_5) Hro).
Defined.

Section FeedClaims.
Context {R : Type} `{UnknownRecord R}.

(** C9.  On a store whose [clock] table has its row,
    [getChangesSince(getClock())] returns the empty sequence and changes
    nothing. *)
Theorem getChangesSince_getClock_is_empty txn :
  clock (sql (storage txn)) <> [] ->
  bind txn_getClock getChangesSince txn
  = (txn, Ok (@nil (TLPersistentStorageChange R))).
Proof.
  intros Hclock. destruct (clock (sql (storage txn))) as [|row rest] eqn:E;
    [done|].
  assert (Hget : txn_getClock txn = (txn, Ok (documentClock row))).
  { run_M. unfold select_documentClock_one. rewrite E. by destruct txn. }
  rewrite (bind_Ok _ _ _ _ _ Hget), (getChangesSince_eq txn row rest _ E).
  by rewrite decide_True.
Qed.

(** C8.  A [sinceClock] above the clock raises no error: one line goes to
    the console, and the batch returned is the one collected for a
    [sinceClock] of -1.  Unless the clock is itself -1, that is the batch
    a call of [getChangesSince(-1)] returns. *)
Theorem getChangesSince_above_clock txn c sinceClock :
  txn_getClock txn = (txn, Ok c) ->
  c < sinceClock ->
  exists changes : list (TLPersistentStorageChange R),
    getChangesSince sinceClock txn
      = (console_logged sinceClock c txn, Ok changes) /\
    collect_changes (-1) txn = (txn, Ok changes) /\
    (c <> -1 -> (getChangesSince (-1) txn).2 = Ok changes).
Proof.
  intros Hget Hlt.
  destruct (clock (sql (storage txn))) as [|row rest] eqn:E.
  { revert Hget. run_M. unfold select_documentClock_one. by rewrite E. }
  assert (c = documentClock row) as ->.
  { revert Hget. run_M. unfold select_documentClock_one. rewrite E.
    by intros [= _ ->]. }
  eexists. split; [|split].
  - rewrite (getChangesSince_eq txn row rest _ E).
    rewrite decide_False by lia. rewrite decide_True by done.
    by rewrite (collect_changes_eq _ row rest (-1)).
  - by rewrite (collect_changes_eq _ row rest (-1) E).
  - intros Hc. rewrite (getChangesSince_eq txn row rest _ E).
    rewrite decide_False by congruence.
    destruct (decide (documentClock row < -1)).
    + by rewrite (collect_changes_eq _ row rest (-1)).
    + by rewrite (collect_changes_eq _ row rest (-1) E).
Qed.

(** C7, as amended.  Let [s] be -1 when [sinceClock] is above the clock
    and [sinceClock] otherwise.  For a [sinceClock] other than the clock,
    the batch holds [WIPE_ALL] exactly when [s] is below
    [tombstoneHistoryStartsAtClock]; it holds it at most once; and when it
    does, [WIPE_ALL] comes first and there is a [PUT] for every document
    whose [lastChangedClock] is above -1. *)
Theorem getChangesSince_WIPE_ALL txn row rest sinceClock :
  clock (sql (storage txn)) = row :: rest ->
  sinceClock <> documentClock row ->
  let s := if decide (documentClock row < sinceClock) then -1
           else sinceClock in
  exists changes : list (TLPersistentStorageChange R),
    (getChangesSince sinceClock txn).2 = Ok changes /\
    (WIPE_ALL ∈ changes <-> s < tombstoneHistoryStartsAtClock row) /\
    (length (filter (fun c => is_WIPE_ALL c) changes) <= 1)%nat /\
    (WIPE_ALL ∈ changes ->
       head changes = Some WIPE_ALL /\
       forall id doc,
         documents (sql (storage txn)) !! id = Some doc ->
         -1 < lastChangedClock doc ->
         PUT (JSON_parse (state doc)) ∈ changes).
Proof.
  intros Hclock Hne s.
  assert (Hlogged : forall a b,
    clock (sql (storage (console_logged a b txn))) = row :: rest) by done.
  assert (exists txn',
    getChangesSince sinceClock txn = collect_changes s txn' /\
    clock (sql (storage txn')) = row :: rest /\
    sql (storage txn') = sql (storage txn)) as (txn' & -> & Hclock' & Hsql).
  { rewrite (getChangesSince_eq txn row rest _ Hclock).
    rewrite decide_False by done. subst s.
    destruct (decide (documentClock row < sinceClock)); eauto. }
  rewrite (collect_changes_eq _ row rest s Hclock'). simpl.
  rewrite Hsql. eexists. split; [done|].
  destruct (bool_decide_reflect (s < tombstoneHistoryStartsAtClock row))
    as [Hw|Hw].
  - split; [|split; [|intros _; split]].
    + split; [done|]. intros _. apply list_elem_of_here.
    + simpl. rewrite filter_app.
      by rewrite filter_WIPE_ALL_PUT, filter_WIPE_ALL_DELETE.
    + done.
    + intros id doc Hdoc Hc. apply list_elem_of_further, elem_of_app. left.
      apply list_elem_of_fmap. exists doc. split; [done|].
      unfold select_documents_where_lastChangedClock_gt, select_documents.
      apply list_elem_of_filter. split; [done|].
      apply list_elem_of_fmap. exists (id, doc). split; [done|].
      by apply elem_of_map_to_list.
  - assert (Hnot : WIPE_ALL ∉
      [] ++ ((fun doc => PUT (JSON_parse (state doc))) <$>
               select_documents_where_lastChangedClock_gt s
                 (sql (storage txn)))
         ++ ((fun t : string * Z => @DELETE R t.1) <$>
               select_tombstones_where_clock_gt s (sql (storage txn)))).
    { simpl. rewrite elem_of_app. intros [Hin|Hin].
      - by apply WIPE_ALL_not_PUT in Hin.
      - by apply WIPE_ALL_not_DELETE in Hin. }
    split; [|split].
    + split; [by intros ?|done].
    + simpl. rewrite filter_app.
      rewrite filter_WIPE_ALL_PUT, filter_WIPE_ALL_DELETE. simpl. lia.
    + by intros ?.
Qed.

End FeedClaims.

Lemma getChangesSince_getClock_is_empty_witness :
  clock (sql (storage (fresh_handle room_at_5))) <> [] /\
  bind txn_getClock getChangesSince (fresh_handle room_at_5)
  = (fresh_handle room_at_5, Ok (@nil (TLPersistentStorageChange string))).
Proof.
  split; [done|].
  by apply (getChangesSince_getClock_is_empty (fresh_handle room_at_5)).
Defined.

Lemma getChangesSince_above_clock_witness :
  txn_getClock (fresh_handle room_at_5) = (fresh_handle room_at_5, Ok 5) /\
  5 < 7 /\
  exists changes : list (TLPersistentStorageChange string),
    getChangesSince 7 (fresh_handle room_at_5)
      = (console_logged 7 5 (fresh_handle room_at_5), Ok changes) /\
    collect_changes (-1) (fresh_handle room_at_5)
      = (fresh_handle room_at_5, Ok changes) /\
    (5 <> -1 ->
     (getChangesSince (-1) (fresh_handle room_at_5)).2 = Ok changes).
Proof.
  split; [reflexivity|]. split; [lia|].
  apply (getChangesSince_above_clock (fresh_handle room_at_5) 5 7);
    [reflexivity | lia].
Defined.

(** C7 as it is written fails on a [sinceClock] above the clock: the batch
    for 7, at clock 5 with a history that starts at 0, begins with
    [WIPE_ALL], and 7 is not below 0. *)
Lemma getChangesSince_WIPE_ALL_counterexample :
  getClock room_at_5 = (room_at_5, Ok 5) /\
  _getTombstoneHistoryStartsAtClock room_at_5 = (room_at_5, Ok 0) /\
  7 <> 5 /\
  (getChangesSince 7 (fresh_handle room_at_5)).2
    = Ok [WIPE_ALL; PUT "two"; DELETE "r:1"] /\
  ~ (WIPE_ALL ∈ [WIPE_ALL; PUT "two"; DELETE "r:1"] <-> 7 < 0).
Proof.
  split; [reflexivity|]. split; [reflexivity|]. split; [lia|].
  split; [vm_compute; reflexivity|].
  intros [Hwipe _]. specialize (Hwipe (list_elem_of_here _ _)). lia.
Qed.

Lemma getChangesSince_WIPE_ALL_witness :
  clock (sql room_at_5)
    = [{| documentClock := 5; tombstoneHistoryStartsAtClock := 0 |}] /\
  7 <> 5 /\
  exists changes : list (TLPersistentStorageChange string),
    (getChangesSince 7 (fresh_handle room_at_5)).2 = Ok changes /\
    (WIPE_ALL ∈ changes <-> -1 < 0) /\
    (length (filter (fun c => is_WIPE_ALL c) changes) <= 1)%nat /\
    (WIPE_ALL ∈ changes ->
       head changes = Some WIPE_ALL /\
       forall id doc,
         documents (sql room_at_5) !! id = Some doc ->
         -1 < lastChangedClock doc ->
         PUT (JSON_parse (state doc)) ∈ changes).
Proof.
  split; [reflexivity|]. split; [lia|].
  apply (getChangesSince_WIPE_ALL (fresh_handle room_at_5)
           {| documentClock := 5; tombstoneHistoryStartsAtClock := 0 |} [] 7);
    [reflexivity | simpl; lia].
Defined.

Section PrunerClaims.

(** C10.  A run of the pruner leaves the [documents] table, the [metadata]
    table and the [documentClock] column alone, whatever its outcome; with
    no more than [MAX_TOMBSTONES] tombstones it returns at once and leaves
    everything as it was. *)
Theorem pruneTombstones_run_frame s :
  let s' := (pruneTombstones_run s).1 in
  documents (sql s') = documents (sql s) /\
  metadata (sql s') = metadata (sql s) /\
  documentClock <$> clock (sql s') = documentClock <$> clock (sql s) /\
  ((select_count_tombstones (sql s) <= MAX_TOMBSTONES)%nat ->
   pruneTombstones_run s = (s, Ok tt)).
Proof.
  assert (Hframe : preserves prune_frame pruneTombstones_run).
  { unfold pruneTombstones_run. p_bind; [by apply preserves_gets; tc_solve|].
    intros n. case_decide; [|p_ret].
    p_bind; [by apply preserves_gets; tc_solve|]. intros ts. cbn zeta.
    p_bind.
    { destruct (ts !! find_cutoff ts); [p_ret|]. by intros s0. }
    intros w. p_bind.
    - apply preserves_modify. intros s0. unfold prune_frame. simpl.
      repeat split; try done. rewrite <- list_fmap_compose.
      by apply list_fmap_ext.
    - intros _. case_decide; [|p_ret].
      apply preserves_for_of; [tc_solve..|]. intros id.
      by apply preserves_modify. }
  destruct (Hframe s) as (Hd & Hm & Hc & _). simpl.
  repeat split; try done.
  intros Hcount. unfold pruneTombstones_run.
  rewrite (bind_Ok _ _ s s (select_count_tombstones (sql s))) by done.
  rewrite decide_False by lia. done.
Qed.

(** C3, as amended.  When a run of the pruner drops rows, that is, with
    more than [MAX_TOMBSTONES] tombstones and a cutoff inside the list,
    the run returns and [tombstoneHistoryStartsAtClock] is the clock of
    the newest tombstone dropped, the one at the cutoff.  The tombstones
    kept are those of the old table above that clock; the oldest of them
    is the one just before the cutoff, and its clock is strictly above
    the watermark. *)
Theorem pruneTombstones_run_watermark s :
  let ts := select_tombstones_order_by_clock_desc (sql s) in
  let cutoff := find_cutoff ts in
  clock (sql s) <> [] ->
  (MAX_TOMBSTONES < select_count_tombstones (sql s))%nat ->
  (cutoff < length ts)%nat ->
  exists kept dropped s',
    ts !! (cutoff - 1)%nat = Some kept /\
    ts !! cutoff = Some dropped /\
    pruneTombstones_run s = (s', Ok tt) /\
    _getTombstoneHistoryStartsAtClock s' = (s', Ok dropped.2) /\
    tombstones (sql s) !! dropped.1 = Some dropped.2 /\
    tombstones (sql s') !! dropped.1 = None /\
    (forall id c,
       tombstones (sql s') !! id = Some c <->
       tombstones (sql s) !! id = Some c /\ dropped.2 < c) /\
    oldest_clock (tombstones (sql s')) = Some kept.2 /\
    dropped.2 < kept.2.
Proof. apply pruneTombstones_run_drops. Qed.

End PrunerClaims.

Lemma pruneTombstones_run_frame_witness :
  (select_count_tombstones (sql room_at_5) <= MAX_TOMBSTONES)%nat /\
  pruneTombstones_run room_at_5 = (room_at_5, Ok tt).
Proof.
  assert (Hcount :
    (select_count_tombstones (sql room_at_5) <= MAX_TOMBSTONES)%nat).
  { apply Nat.leb_le. vm_compute. reflexivity. }
  split; [exact Hcount|].
  exact (proj2 (proj2 (proj2 (pruneTombstones_run_frame room_at_5))) Hcount).
Defined.


Lemma cuts_between_true s kept dropped :
  cuts_between s kept dropped = true ->
  (MAX_TOMBSTONES < select_count_tombstones (sql s))%nat /\
  (find_cutoff (select_tombstones_order_by_clock_desc (sql s))
   < length (select_tombstones_order_by_clock_desc (sql s)))%nat /\
  select_tombstones_order_by_clock_desc (sql s)
    !! (find_cutoff (select_tombstones_order_by_clock_desc (sql s)) - 1)%nat
  = Some kept /\
  select_tombstones_order_by_clock_desc (sql s)
    !! find_cutoff (select_tombstones_order_by_clock_desc (sql s))
  = Some dropped.
Proof.
  unfold cuts_between. rewrite !andb_true_iff, !bool_decide_eq_true. tauto.
Qed.

(** The room with 5001 tombstones: the pruner finds its cutoff at 1000,
    between the tombstones at clocks 4002 and 4001. *)
Lemma room_with_5001_tombstones_cutoff :
  cuts_between room_with_5001_tombstones ("t:4002", 4002) ("t:4001", 4001)
  = true.
Proof. vm_compute. reflexivity. Qed.

(** C3 as it is written fails: after a run on the room with 5001
    tombstones the watermark is 4001, the clock of the newest tombstone
    dropped, and the oldest tombstone kept is at clock 4002. *)
Lemma pruneTombstones_run_watermark_counterexample :
  (MAX_TOMBSTONES
   < select_count_tombstones (sql room_with_5001_tombstones))%nat /\
  (find_cutoff
     (select_tombstones_order_by_clock_desc (sql room_with_5001_tombstones))
   < length
       (select_tombstones_order_by_clock_desc
          (sql room_with_5001_tombstones)))%nat /\
  exists s',
    pruneTombstones_run room_with_5001_tombstones = (s', Ok tt) /\
    _getTombstoneHistoryStartsAtClock s' = (s', Ok 4001) /\
    oldest_clock (tombstones (sql s')) = Some 4002 /\
    4001 <> 4002.
Proof.
  destruct (cuts_between_true _ _ _ room_with_5001_tombstones_cutoff)
    as (Hcount & Hcut & Hkept0 & Hdropped0).
  split; [exact Hcount|]. split; [exact Hcut|].
  assert (Hclock : clock (sql room_with_5001_tombstones) <> []).
  { intros E. vm_compute in E. discriminate E. }
  destruct (pruneTombstones_run_drops room_with_5001_tombstones
              Hclock Hcount Hcut)
    as (kept & dropped & s' & Hkept & Hdropped & Hrun & Hw & _ & _ & _
        & Holdest & _).
  pose proof (eq_trans (eq_sym Hkept) Hkept0) as Ek.
  pose proof (eq_trans (eq_sym Hdropped) Hdropped0) as Ed.
  injection Ek as ->. injection Ed as ->.
  exists s'. split; [exact Hrun|]. split; [exact Hw|].
  split; [exact Holdest|]. lia.
Qed.

Lemma pruneTombstones_run_watermark_witness :
  clock (sql room_with_5001_tombstones) <> [] /\
  (MAX_TOMBSTONES
   < select_count_tombstones (sql room_with_5001_tombstones))%nat /\
  (find_cutoff
     (select_tombstones_order_by_clock_desc (sql room_with_5001_tombstones))
   < length
       (select_tombstones_order_by_clock_desc
          (sql room_with_5001_tombstones)))%nat /\
  exists (kept dropped : string * Z) s',
    pruneTombstones_run room_with_5001_tombstones = (s', Ok tt) /\
    _getTombstoneHistoryStartsAtClock s' = (s', Ok dropped.2) /\
    oldest_clock (tombstones (sql s')) = Some kept.2 /\
    dropped.2 < kept.2.
Proof.
  assert (Hclock : clock (sql room_with_5001_tombstones) <> []).
  { intros E. vm_compute in E. discriminate E. }
  destruct (cuts_between_true _ _ _ room_with_5001_tombstones_cutoff)
    as (Hcount & Hcut & _ & _).
  split; [exact Hclock|]. split; [exact Hcount|]. split; [exact Hcut|].
  destruct (pruneTombstones_run_watermark room_with_5001_tombstones
              Hclock Hcount Hcut)
    as (kept & dropped & s' & _ & _ & Hrun & Hw & _ & _ & _ & Holdest & Hgap).
  exists kept, dropped, s'. split; [exact Hrun|]. split; [exact Hw|].
  split; [exact Holdest|exact Hgap].
Defined.

(** ** setDocument, deleteDocument and the tombstones *)

(** [setDocument] never touches the [tombstones] table. *)
Lemma setDocument_tombstones {R} `{UnknownRecord R} id (st : R) txn :
  tombstones (sql (storage (setDocument id st txn).1))
  = tombstones (sql (storage txn)).
Proof.
  unfold setDocument, getNextClock. run_M.
  destruct (_didIncrementClock txn); simpl;
    by destruct (select_documentClock_one _).
Qed.

(** [deleteDocument] on an id without a tombstone: the document row goes,
    the tombstone is written at the clock of the transaction, and the
    timer of the pruner is armed. *)
Lemma deleteDocument_without_tombstone
    {R} `{UnknownRecord R} id txn row rest :
  clock (sql (storage txn)) = row :: rest ->
  tombstones (sql (storage txn)) !! id = None ->
  exists txn',
    deleteDocument id txn = (txn', Ok tt) /\
    documents (sql (storage txn')) = delete id (documents (sql (storage txn))) /\
    tombstones (sql (storage txn'))
      = <[id := documentClock row
                + if _didIncrementClock txn then 0 else 1]>
          (tombstones (sql (storage txn))) /\
    pruneTombstones_timer (storage txn') = true.
Proof.
  intros Hclock Hnone. unfold deleteDocument, getNextClock. run_M.
  unfold select_documentClock_one, insert_into_tombstones.
  destruct (_didIncrementClock txn); simpl; rewrite Hclock, Hnone; simpl.
  - eexists. split; [done|]. simpl. by rewrite Z.add_0_r.
  - eexists. split; [done|]. by simpl.
Qed.

(** [deleteDocument] on an id that has a tombstone throws at the INSERT,
    after the clock was stepped and the document row deleted. *)
Lemma deleteDocument_with_tombstone {R} `{UnknownRecord R} id txn row rest c :
  clock (sql (storage txn)) = row :: rest ->
  tombstones (sql (storage txn)) !! id = Some c ->
  (deleteDocument id txn).2 = Throw (SqlConstraintPrimaryKey "tombstones").
Proof.
  intros Hclock Hsome. unfold deleteDocument, getNextClock. run_M.
  unfold select_documentClock_one, insert_into_tombstones.
  destruct (_didIncrementClock txn); simpl; by rewrite Hclock, Hsome.
Qed.

(** C1, on the code: a record written, deleted and written again is in
    both tables.  The three transactions succeed, the last one returns
    clock 3, and ["r:1"] has its document row at clock 3 and still has
    its tombstone at clock 2.  The changes since 0 then hold a [PUT] and
    a [DELETE] for it, and deleting it once more throws. *)
Theorem setDocument_leaves_the_tombstone :
  let s := (write_delete_write empty_room).1 in
  (write_delete_write empty_room).2
    = Ok {| result_documentClock := 3; didChange := true; result := tt |} /\
  documents (sql s) !! "r:1"
    = Some {| state := "again"; lastChangedClock := 3 |} /\
  tombstones (sql s) !! "r:1" = Some 2 /\
  (getChangesSince 0 (fresh_handle s)).2
    = Ok [PUT "again"; DELETE "r:1"] /\
  (transaction "s" (delete_one "r:1") s).2
    = Throw (SqlConstraintPrimaryKey "tombstones").
Proof. vm_compute. repeat split. Qed.

(** C2, on the code: a second [deleteDocument] of the same id throws.
    On the empty room the first one, of an id the store never saw,
    writes the tombstone at clock 1; the second one throws the
    constraint error of the INSERT, and the transaction is rolled back. *)
Theorem deleteDocument_again_throws :
  let s1 := (transaction "s" (delete_one "r:9") empty_room).1 in
  (transaction "s" (delete_one "r:9") empty_room).2
    = Ok {| result_documentClock := 1; didChange := true; result := tt |} /\
  tombstones (sql s1) !! "r:9" = Some 1 /\
  (transaction "s" (delete_one "r:9") s1).2
    = Throw (SqlConstraintPrimaryKey "tombstones") /\
  sql (transaction "s" (delete_one "r:9") s1).1 = sql s1.
Proof. vm_compute. repeat split. Qed.

(** * Further properties *)

(** ** The rows a transaction writes *)

Lemma clock_is_step c txn txn' :
  handle_step txn txn' -> clock_is c txn -> clock_is c txn'.
Proof.
  intros (_ & _ & _ & F & K). unfold clock_is, select_documentClock_one.
  rewrite K.
  destruct (_didIncrementClock txn), (_didIncrementClock txn') eqn:E';
    simpl in *; try (specialize (F eq_refl); discriminate);
    destruct (clock (sql (storage txn))) as [|row rest]; try done;
    simpl; intros [= Hc]; f_equal; lia.
Qed.

Global Instance stamp_step_refl c : Reflexive (stamp_step c).
Proof. intros txn. split; [reflexivity|]. intros _. split; auto. Qed.

Global Instance stamp_step_trans c : Transitive (stamp_step c).
Proof.
  intros t0 t1 t2 [S1 Q1] [S2 Q2]. split; [by etransitivity|].
  intros Hc. destruct (Q1 Hc) as [D1 T1].
  destruct (Q2 (clock_is_step c t0 t1 S1 Hc)) as [D2 T2].
  destruct S2 as (_ & _ & _ & F & _).
  split.
  - intros id doc Hdoc. destruct (D2 id doc Hdoc) as [Hold|?]; [|by right].
    destruct (D1 id doc Hold) as [?|[Hf ?]]; [by left|right; auto].
  - intros id t Ht. destruct (T2 id t Ht) as [Hold|?]; [|by right].
    destruct (T1 id t Hold) as [?|[Hf ?]]; [by left|right; auto].
Qed.

Section Stamps.
Context {R : Type} `{UnknownRecord R}.

Lemma read_is_stamp {A} c (m : M SqlLiteSyncStorageTransaction A) :
  preserves handle_read m -> preserves (stamp_step c) m.
Proof.
  intros Hr txn. split; [by apply handle_read_step|].
  destruct (Hr txn) as (-> & _). intros _. split; auto.
Qed.

Lemma setDocument_stamp c id st : preserves (stamp_step c) (setDocument id st).
Proof.
  intros txn. split; [apply setDocument_step|].
  unfold clock_is, setDocument, getNextClock. run_M. intros Hc.
  destruct (_didIncrementClock txn) eqn:E; simpl.
  - rewrite Hc. simpl. rewrite E. split; [|by auto].
    intros id' doc. destruct (decide (id = id')) as [->|Hne].
    + rewrite lookup_insert_eq. intros [= <-]. by right.
    + rewrite lookup_insert_ne by done. by left.
  - unfold select_documentClock_one in *. simpl.
    destruct (clock (sql (storage txn))) as [|row rest]; [done|].
    injection Hc as Hc. simpl. split; [|by auto].
    intros id' doc. destruct (decide (id = id')) as [->|Hne].
    + rewrite lookup_insert_eq. intros [= <-]. right. simpl.
      split; [done|lia].
    + rewrite lookup_insert_ne by done. by left.
Qed.

Lemma deleteDocument_stamp c id : preserves (stamp_step c) (deleteDocument id).
Proof.
  intros txn. split; [apply deleteDocument_step|].
  unfold clock_is, deleteDocument, getNextClock. run_M. intros Hc.
  assert (Hdel : forall id' (doc : DocumentRow),
    delete id (documents (sql (storage txn))) !! id' = Some doc ->
    documents (sql (storage txn)) !! id' = Some doc).
  { intros id' doc. rewrite lookup_delete_Some. tauto. }
  unfold insert_into_tombstones.
  destruct (_didIncrementClock txn) eqn:E; simpl.
  - rewrite Hc. simpl.
    destruct (tombstones (sql (storage txn)) !! id) eqn:Et; simpl.
    + split; [|by auto]. intros id' doc Hd. left. by apply Hdel.
    + rewrite E. split; [intros id' doc Hd; left; by apply Hdel|].
      intros id' t. destruct (decide (id = id')) as [->|Hne].
      * rewrite lookup_insert_eq. intros [= <-]. by right.
      * rewrite lookup_insert_ne by done. by left.
  - unfold select_documentClock_one in *. simpl.
    destruct (clock (sql (storage txn))) as [|row rest]; [done|].
    injection Hc as Hc. simpl.
    destruct (tombstones (sql (storage txn)) !! id) eqn:Et; simpl.
    + split; [|by auto]. intros id' doc Hd. left. by apply Hdel.
    + split; [intros id' doc Hd; left; by apply Hdel|].
      intros id' t. destruct (decide (id = id')) as [->|Hne].
      * rewrite lookup_insert_eq. intros [= <-]. right. split; [done|lia].
      * rewrite lookup_insert_ne by done. by left.
Qed.

Lemma setMetadata_stamp c key value :
  preserves (stamp_step c) (setMetadata key value).
Proof.
  intros txn. split; [apply setMetadata_step|]. intros _.
  unfold setMetadata. run_M. split; auto.
Qed.

Lemma call_stamp {T} c (cb : Callback R T) :
  preserves (stamp_step c) (call cb).
Proof.
  induction cb; simpl; try (p_bind; [| done]).
  - p_ret.
  - p_throw.
  - by apply preserves_try_catch; [tc_solve | |].
  - apply read_is_stamp, txn_getClock_read.
  - apply read_is_stamp, getDocument_read.
  - apply setDocument_stamp.
  - apply deleteDocument_stamp.
  - apply read_is_stamp, txn_documents_read.
  - apply read_is_stamp, documentIds_read.
  - apply read_is_stamp, getMetadata_read.
  - apply setMetadata_stamp.
  - apply read_is_stamp, txn_tombstones_read.
  - apply read_is_stamp, getChangesSince_read.
Qed.

Lemma transaction_stamps {T} source (cb : Callback R T) s s' r :
  transaction source cb s = (s', Ok r) ->
  rows_old_or_at (result_documentClock r) (sql s) (sql s').
Proof.
  intros Htx.
  destruct (clock (sql s)) as [|row rest] eqn:E.
  { unfold transaction, bind, getClock, query_one,
      select_documentClock_one in Htx. by rewrite E in Htx. }
  pose proof (transaction_outcome source cb s row rest E) as Hout.
  destruct (call_stamp (documentClock row) cb (fresh_handle s)) as [_ Q].
  simpl in Hout. rewrite Htx in Hout.
  destruct (call cb (fresh_handle s)) as [txn' [t|e]]; [|done].
  simpl in *. injection Hout as -> ->. simpl.
  assert (Hsql : forall b l,
    sql (if b : bool then with_calls l (storage txn') else storage txn')
    = sql (storage txn')) by (by intros []).
  rewrite Hsql.
  destruct Q as [D Tm].
  { unfold clock_is, select_documentClock_one. simpl. rewrite E.
    f_equal. lia. }
  split.
  - intros id doc Hd. destruct (D id doc Hd) as [?|[-> ->]]; auto.
  - intros id tc Ht. destruct (Tm id tc Ht) as [?|[-> ->]]; auto.
Qed.

(** X7.  A transaction that returns leaves every document and every tombstone
    as it was or at the clock it returns: all the rows written in one
    transaction carry one clock. *)
Theorem transaction_rows_old_or_stamped {T} source (cb : Callback R T) s s' r :
  transaction source cb s = (s', Ok r) ->
  rows_old_or_at (result_documentClock r) (sql s) (sql s').
Proof. apply transaction_stamps. Qed.

(** X8.  Whatever a transaction does, the clock does not go back, and if no
    row was ahead of the clock before it, none is after it. *)
Theorem transaction_keeps_rows_at_most {T} source (cb : Callback R T) s c :
  getClock s = (s, Ok c) ->
  rows_at_most c (sql s) ->
  let s' := (transaction source cb s).1 in
  exists c', getClock s' = (s', Ok c') /\ c <= c' /\ rows_at_most c' (sql s').
Proof.
  intros Hget [Hd Ht] s'. subst s'.
  destruct (clock (sql s)) as [|row rest] eqn:E.
  { revert Hget. unfold getClock, query_one, select_documentClock_one.
    by rewrite E. }
  assert (c = documentClock row) as ->.
  { revert Hget. unfold getClock, query_one, select_documentClock_one.
    rewrite E. by intros [= ->]. }
  destruct (transaction source cb s) as [s' [r|e]] eqn:Htx; simpl.
  - pose proof (transaction_stamps _ _ _ _ _ Htx) as [D Tm].
    pose proof (transaction_outcome source cb s row rest E) as Hout.
    pose proof (clock_after_call cb s row rest E) as Hafter.
    simpl in Hout, Hafter. rewrite Htx in Hout.
    destruct (call cb (fresh_handle s)) as [txn' [t|e]]; [|done].
    simpl in *. injection Hout as -> ->. simpl in *.
    assert (Hsql : forall b l,
      sql (if b : bool then with_calls l (storage txn') else storage txn')
      = sql (storage txn')) by (by intros []).
    eexists. unfold getClock, query_one. rewrite Hsql, Hafter.
    split; [done|]. rewrite Hsql in D, Tm.
    split; [destruct (_didIncrementClock txn'); lia|]. split.
    + intros id doc Hdoc. destruct (D id doc Hdoc) as [Hold| ->]; [|lia].
      specialize (Hd id doc Hold). destruct (_didIncrementClock txn'); lia.
    + intros id tc Htomb. destruct (Tm id tc Htomb) as [Hold| ->]; [|lia].
      specialize (Ht id tc Hold). destruct (_didIncrementClock txn'); lia.
  - pose proof (transaction_outcome source cb s row rest E) as Hout.
    simpl in Hout. rewrite Htx in Hout.
    destruct (call cb (fresh_handle s)) as [txn' [t|e']].
    { simpl in Hout. done. }
    injection Hout as -> ->. exists (documentClock row).
    unfold getClock, query_one, select_documentClock_one. simpl. rewrite E.
    split; [done|]. split; [lia|]. by split.
Qed.

End Stamps.

Lemma transaction_rows_old_or_stamped_witness :
  exists s' r,
    transaction "s" (write_one "r:3" "three") room_at_5 = (s', Ok r) /\
    result_documentClock r = 6 /\
    rows_old_or_at (result_documentClock r) (sql room_at_5) (sql s').
Proof.
  destruct (transaction "s" (write_one "r:3" "three") room_at_5)
    as [s' [r|e]] eqn:E.
  - exists s', r. split; [done|]. split.
    + pose proof (f_equal snd E) as Hr. vm_compute in Hr.
      injection Hr as <-. reflexivity.
    + exact (transaction_rows_old_or_stamped _ _ _ _ _ E).
  - vm_compute in E. discriminate.
Defined.

Lemma transaction_keeps_rows_at_most_witness :
  getClock room_at_5 = (room_at_5, Ok 5) /\
  rows_at_most 5 (sql room_at_5) /\
  exists c',
    getClock (transaction "s" (write_one "r:3" "three") room_at_5).1
      = ((transaction "s" (write_one "r:3" "three") room_at_5).1, Ok c') /\
    5 <= c' /\
    rows_at_most c'
      (sql (transaction "s" (write_one "r:3" "three") room_at_5).1).
Proof.
  assert (Hrows : rows_at_most 5 (sql room_at_5)).
  { split.
    - intros id doc Hl. apply elem_of_list_to_map_2 in Hl.
      apply list_elem_of_singleton in Hl as [= -> ->]. simpl. lia.
    - intros id t Hl. apply elem_of_list_to_map_2 in Hl.
      apply list_elem_of_singleton in Hl as [= -> ->]. lia. }
  split; [reflexivity|]. split; [exact Hrows|].
  exact (transaction_keeps_rows_at_most "s" (write_one "r:3" "three")
           room_at_5 5 eq_refl Hrows).
Defined.

(** ** Reading back what was written *)

Section ReadBack.
Context {R : Type} `{UnknownRecord R}.

(** X11.  [getDocument] after [setDocument], on a store whose [clock] table has
    its row: the record comes back through its JSON text, at the clock of
    the transaction, which is the clock [getClock] reads from then on; the
    other documents read as before. *)
Theorem setDocument_then_getDocument txn id (st : R) row rest :
  clock (sql (storage txn)) = row :: rest ->
  let c := documentClock row + if _didIncrementClock txn then 0 else 1 in
  exists txn',
    bind (setDocument id st) (fun _ => getDocument id) txn
      = (txn', Ok (Some (JSON_parse (JSON_stringify st), c))) /\
    txn_getClock txn' = (txn', Ok c) /\
    _didIncrementClock txn' = true /\
    forall id', id' <> id ->
      (getDocument id' txn').2 = (getDocument id' txn).2.
Proof.
  intros Hclock c. subst c.
  unfold setDocument, getNextClock, getDocument. run_M.
  unfold select_documentClock_one, select_document_where_id.
  destruct txn as [s flag]. simpl in *.
  destruct flag; simpl; rewrite Hclock; simpl; rewrite lookup_insert_eq;
    simpl; (eexists; split; [rewrite ?Z.add_0_r; reflexivity|]);
    simpl; rewrite ?Hclock; simpl; rewrite ?Z.add_0_r;
    (split; [done|split; [done|]]);
    intros id' Hne; rewrite lookup_insert_ne by done;
    by destruct (documents (sql s) !! id').
Qed.

(** X12.  [getDocument] after [deleteDocument] of an id without a tombstone:
    nothing is found, the tombstone is at the clock of the transaction,
    and the other documents and tombstones are as before. *)
Theorem deleteDocument_then_getDocument txn id row rest :
  clock (sql (storage txn)) = row :: rest ->
  tombstones (sql (storage txn)) !! id = None ->
  let c := documentClock row + if _didIncrementClock txn then 0 else 1 in
  exists txn',
    bind (deleteDocument id) (fun _ => @getDocument R _ id) txn
      = (txn', Ok None) /\
    tombstones (sql (storage txn')) !! id = Some c /\
    txn_getClock txn' = (txn', Ok c) /\
    forall id', id' <> id ->
      (@getDocument R _ id' txn').2 = (@getDocument R _ id' txn).2 /\
      tombstones (sql (storage txn')) !! id'
        = tombstones (sql (storage txn)) !! id'.
Proof.
  intros Hclock Hnone c. subst c.
  unfold deleteDocument, getNextClock, getDocument. run_M.
  unfold select_documentClock_one, select_document_where_id,
    insert_into_tombstones.
  destruct txn as [s flag]. simpl in *.
  destruct flag; simpl; rewrite Hclock; simpl; rewrite Hnone; simpl;
    rewrite lookup_delete_eq; simpl;
    (eexists; split; [reflexivity|]); simpl; rewrite lookup_insert_eq;
    rewrite ?Hclock; simpl; rewrite ?Z.add_0_r;
    (split; [done|split; [done|]]);
    intros id' Hne; rewrite lookup_delete_ne, lookup_insert_ne by done;
    (split; [by destruct (documents (sql s) !! id')|done]).
Qed.

(** X14.  [getMetadata] after [setMetadata] finds the value; the other keys,
    the other tables and the flag of the handle are as before.  No clock
    is involved, and nothing can fail. *)
Theorem setMetadata_then_getMetadata txn key value :
  exists txn',
    bind (setMetadata key value) (fun _ => getMetadata key) txn
      = (txn', Ok (Some value)) /\
    handle_metadata txn txn' /\
    forall key', key' <> key ->
      metadata (sql (storage txn')) !! key'
      = metadata (sql (storage txn)) !! key'.
Proof.
  unfold setMetadata, getMetadata. run_M. unfold select_metadata_where_key.
  simpl. rewrite lookup_insert_eq. eexists. split; [done|]. simpl.
  split; [by repeat split|].
  intros key' Hne. by rewrite lookup_insert_ne.
Qed.

End ReadBack.

(** ** Transactions that write no document *)

Global Instance handle_metadata_refl : Reflexive handle_metadata.
Proof. by intros txn. Qed.

Global Instance handle_metadata_trans : Transitive handle_metadata.
Proof.
  intros t0 t1 t2 (A1 & B1 & C1 & D1 & E1 & F1 & G1 & H1)
    (A2 & B2 & C2 & D2 & E2 & F2 & G2 & H2).
  unfold handle_metadata. repeat split; congruence.
Qed.

Section Metadata.
Context {R : Type} `{UnknownRecord R}.

Lemma read_is_metadata {A} (m : M SqlLiteSyncStorageTransaction A) :
  preserves handle_read m -> preserves handle_metadata m.
Proof.
  intros Hr txn. destruct (Hr txn) as (Hsql & ? & ? & ? & ? & ?).
  unfold handle_metadata. rewrite Hsql. by repeat split.
Qed.

Lemma call_writes_no_document {T} (cb : Callback R T) :
  writes_no_document cb -> preserves handle_metadata (call cb).
Proof.
  induction 1; simpl; try (p_bind; [| done]).
  - p_ret.
  - p_throw.
  - by apply preserves_try_catch; [tc_solve | |].
  - apply read_is_metadata, txn_getClock_read.
  - apply read_is_metadata, getDocument_read.
  - apply read_is_metadata, txn_documents_read.
  - apply read_is_metadata, documentIds_read.
  - apply read_is_metadata, getMetadata_read.
  - unfold setMetadata. run_M. by intros txn.
  - apply read_is_metadata, txn_tombstones_read.
  - apply read_is_metadata, getChangesSince_read.
Qed.

(** X10.  A transaction whose body writes no document, whatever it writes to
    the metadata, leaves the documents, the tombstones and the clock as
    they were and calls no listener; when it returns, [didChange] is
    false. *)
Theorem transaction_without_document_writes {T} source (cb : Callback R T) s :
  writes_no_document cb ->
  let s' := (transaction source cb s).1 in
  documents (sql s') = documents (sql s) /\
  tombstones (sql s') = tombstones (sql s) /\
  clock (sql s') = clock (sql s) /\
  calls s' = calls s /\
  forall r, (transaction source cb s).2 = Ok r -> didChange r = false.
Proof.
  intros Hcb s'. subst s'.
  destruct (clock (sql s)) as [|row rest] eqn:E.
  { unfold transaction, bind, getClock, query_one, select_documentClock_one.
    rewrite E. by simpl. }
  rewrite (transaction_outcome source cb s row rest E).
  destruct (call_writes_no_document cb Hcb (fresh_handle s))
    as (D & Tm & K & F & _ & _ & _ & C).
  destruct (call cb (fresh_handle s)) as [txn' [t|e]]; simpl in *.
  - rewrite F. rewrite bool_decide_eq_false_2 by lia. simpl.
    rewrite D, Tm, K, C, E. repeat split; try done.
    by intros r [= <-].
  - by rewrite E.
Qed.

End Metadata.

Lemma transaction_without_document_writes_witness :
  writes_no_document write_metadata /\
  (transaction "s" write_metadata room_at_5).2
    = Ok {| result_documentClock := 5; didChange := false;
            result := Some "ada" |} /\
  calls (transaction "s" write_metadata room_at_5).1 = calls room_at_5 /\
  metadata (sql (transaction "s" write_metadata room_at_5).1) !! "owner"
    = Some "ada".
Proof.
  assert (Hcb : writes_no_document write_metadata) by (repeat constructor).
  split; [exact Hcb|]. split; [vm_compute; reflexivity|].
  split; [|vm_compute; reflexivity].
  exact (proj1 (proj2 (proj2 (proj2
    (transaction_without_document_writes "s" write_metadata room_at_5 Hcb))))).
Defined.

(** ** The content of the change feed *)

Section FeedContent.
Context {R : Type} `{UnknownRecord R}.

(** X16.  For a [sinceClock] from the watermark on and below the clock, the
    batch has no [WIPE_ALL]; its [PUT]s are the records of the documents
    changed after [sinceClock], its [DELETE]s the ids of the tombstones
    written after it, and nothing is logged or changed. *)
Theorem getChangesSince_incremental txn row rest sinceClock :
  clock (sql (storage txn)) = row :: rest ->
  tombstoneHistoryStartsAtClock row <= sinceClock ->
  sinceClock < documentClock row ->
  exists changes : list (TLPersistentStorageChange R),
    getChangesSince sinceClock txn = (txn, Ok changes) /\
    (WIPE_ALL ∉ changes) /\
    (forall r, PUT r ∈ changes <->
       exists id doc,
         documents (sql (storage txn)) !! id = Some doc /\
         sinceClock < lastChangedClock doc /\
         r = JSON_parse (state doc)) /\
    (forall id, DELETE id ∈ changes <->
       exists c,
         tombstones (sql (storage txn)) !! id = Some c /\ sinceClock < c).
Proof.
  intros Hclock Hw Hlt.
  rewrite (getChangesSince_eq txn row rest _ Hclock).
  rewrite decide_False by lia. rewrite decide_False by lia.
  rewrite (collect_changes_eq _ row rest _ Hclock). simpl.
  rewrite bool_decide_eq_false_2 by lia. simpl.
  eexists. split; [done|]. split; [|split].
  - rewrite elem_of_app. intros [Hin|Hin].
    + by apply WIPE_ALL_not_PUT in Hin.
    + by apply WIPE_ALL_not_DELETE in Hin.
  - intros r. rewrite elem_of_app. split.
    + intros [Hin|Hin].
      * apply list_elem_of_fmap in Hin as (doc & [= ->] & Hin).
        unfold select_documents_where_lastChangedClock_gt, select_documents
          in Hin.
        apply list_elem_of_filter in Hin as [Hc Hin].
        apply list_elem_of_fmap in Hin as ([id doc'] & -> & Hin).
        apply elem_of_map_to_list in Hin. by exists id, doc'.
      * apply list_elem_of_fmap in Hin as (t & Heq & _). discriminate.
    + intros (id & doc & Hdoc & Hc & ->). left.
      apply list_elem_of_fmap. exists doc. split; [done|].
      apply list_elem_of_filter. split; [done|].
      apply list_elem_of_fmap. exists (id, doc). split; [done|].
      by apply elem_of_map_to_list.
  - intros id. rewrite elem_of_app. split.
    + intros [Hin|Hin].
      * apply list_elem_of_fmap in Hin as (doc & Heq & _). discriminate.
      * apply list_elem_of_fmap in Hin as ([id' c] & [= ->] & Hin).
        unfold select_tombstones_where_clock_gt, select_tombstones in Hin.
        apply list_elem_of_filter in Hin as [Hc Hin].
        apply elem_of_map_to_list in Hin. by exists c.
    + intros (c & Ht & Hc). right.
      apply list_elem_of_fmap. exists (id, c). split; [done|].
      apply list_elem_of_filter. split; [done|].
      by apply elem_of_map_to_list.
Qed.

End FeedContent.

Lemma setDocument_then_getDocument_witness :
  clock (sql room_at_5)
    = [{| documentClock := 5; tombstoneHistoryStartsAtClock := 0 |}] /\
  exists txn',
    bind (setDocument "r:3" "three") (fun _ => getDocument "r:3")
         (fresh_handle room_at_5)
      = (txn', Ok (Some ("three", 6))) /\
    txn_getClock txn' = (txn', Ok 6) /\
    _didIncrementClock txn' = true /\
    forall id', id' <> "r:3" ->
      (@getDocument string _ id' txn').2
      = (@getDocument string _ id' (fresh_handle room_at_5)).2.
Proof.
  split; [reflexivity|].
  exact (setDocument_then_getDocument (fresh_handle room_at_5) "r:3" "three"
           {| documentClock := 5; tombstoneHistoryStartsAtClock := 0 |} []
           eq_refl).
Defined.

Lemma deleteDocument_then_getDocument_witness :
  clock (sql room_at_5)
    = [{| documentClock := 5; tombstoneHistoryStartsAtClock := 0 |}] /\
  tombstones (sql room_at_5) !! "r:2" = None /\
  exists txn',
    bind (deleteDocument "r:2") (fun _ => @getDocument string _ "r:2")
         (fresh_handle room_at_5)
      = (txn', Ok None) /\
    tombstones (sql (storage txn')) !! "r:2" = Some 6 /\
    txn_getClock txn' = (txn', Ok 6) /\
    forall id', id' <> "r:2" ->
      (@getDocument string _ id' txn').2
      = (@getDocument string _ id' (fresh_handle room_at_5)).2 /\
      tombstones (sql (storage txn')) !! id'
      = tombstones (sql room_at_5) !! id'.
Proof.
  split; [reflexivity|]. split; [vm_compute; reflexivity|].
  apply (deleteDocument_then_getDocument (fresh_handle room_at_5) "r:2"
           {| documentClock := 5; tombstoneHistoryStartsAtClock := 0 |} []
           eq_refl).
  vm_compute. reflexivity.
Defined.

Lemma getChangesSince_incremental_witness :
  clock (sql room_at_5)
    = [{| documentClock := 5; tombstoneHistoryStartsAtClock := 0 |}] /\
  0 <= 4 /\ 4 < 5 /\
  exists changes : list (TLPersistentStorageChange string),
    getChangesSince 4 (fresh_handle room_at_5)
      = (fresh_handle room_at_5, Ok changes) /\
    (WIPE_ALL ∉ changes) /\
    (forall r, PUT r ∈ changes <->
       exists id doc,
         documents (sql room_at_5) !! id = Some doc /\
         4 < lastChangedClock doc /\
         r = JSON_parse (state doc)) /\
    (forall id, DELETE id ∈ changes <->
       exists c, tombstones (sql room_at_5) !! id = Some c /\ 4 < c).
Proof.
  split; [reflexivity|]. split; [lia|]. split; [lia|].
  apply (getChangesSince_incremental (fresh_handle room_at_5)
           {| documentClock := 5; tombstoneHistoryStartsAtClock := 0 |} [] 4);
    [reflexivity | simpl; lia | simpl; lia].
Defined.

(** ** More on the pruner *)

(** With one clock on all the rows from the one before [cutoff] on, the
    loop runs to the end of the list. *)
Lemma find_cutoff_loop_one_cohort turns (ts : list (string * Z)) cutoff c0 :
  (forall i a, (cutoff - 1 <= i)%nat -> ts !! i = Some a -> a.2 = c0) ->
  (1 <= cutoff)%nat ->
  (length ts - cutoff <= turns)%nat ->
  (length ts <= find_cutoff_loop turns ts cutoff)%nat.
Proof.
  revert cutoff. induction turns as [|turns IH]; intros cutoff Hc Hpos Hturns;
    simpl.
  - lia.
  - destruct (decide _) as [Hgo|Hstop].
    + apply IH; [|lia|lia]. intros i a Hi. apply Hc. lia.
    + destruct (decide (cutoff < length ts)%nat) as [Hlt|]; [|lia].
      exfalso. apply Hstop. split; [done|].
      destruct (lookup_lt_is_Some_2 ts cutoff Hlt) as [b Hb].
      destruct (lookup_lt_is_Some_2 ts (cutoff - 1)) as [a Ha]; [lia|].
      rewrite Ha, Hb. simpl.
      rewrite (Hc (cutoff - 1)%nat a ltac:(lia) Ha).
      rewrite (Hc cutoff b ltac:(lia) Hb). done.
Qed.

(** A run above the threshold whose cutoff is the end of the list: no
    row is deleted and the watermark becomes the clock. *)
Lemma pruneTombstones_run_no_cut s row rest :
  clock (sql s) = row :: rest ->
  (MAX_TOMBSTONES < select_count_tombstones (sql s))%nat ->
  (length (select_tombstones_order_by_clock_desc (sql s))
   <= find_cutoff (select_tombstones_order_by_clock_desc (sql s)))%nat ->
  pruneTombstones_run s
  = (with_sql
       (update_tombstoneHistoryStartsAtClock (documentClock row) (sql s)) s,
     Ok tt).
Proof.
  intros Hclock Hcount Hend. unfold pruneTombstones_run.
  rewrite (bind_Ok _ _ s s (select_count_tombstones (sql s))) by done.
  rewrite decide_True by done.
  rewrite (bind_Ok _ _ s s (select_tombstones_order_by_clock_desc (sql s)))
    by done.
  cbn zeta. rewrite (lookup_ge_None_2 _ _ Hend).
  rewrite (bind_Ok _ _ s s (documentClock row)).
  2: { unfold getClock, query_one, select_documentClock_one.
       by rewrite Hclock. }
  rewrite (bind_Ok _ _ s
    (with_sql
       (update_tombstoneHistoryStartsAtClock (documentClock row) (sql s)) s)
    tt) by done.
  rewrite decide_False by lia. done.
Qed.

(** X18.  When the tombstones from the 1000th newest on all carry one clock,
    as after one transaction that deleted more than 5000 records, a run
    of the pruner deletes nothing, however many tombstones there are: it
    only moves the watermark to the current clock. *)
Theorem pruneTombstones_run_one_cohort s row rest c0 :
  clock (sql s) = row :: rest ->
  (MAX_TOMBSTONES < select_count_tombstones (sql s))%nat ->
  (forall i a,
     (TOMBSTONE_PRUNE_BUFFER_SIZE - 1 <= i)%nat ->
     select_tombstones_order_by_clock_desc (sql s) !! i = Some a ->
     a.2 = c0) ->
  exists s',
    pruneTombstones_run s = (s', Ok tt) /\
    tombstones (sql s') = tombstones (sql s) /\
    _getTombstoneHistoryStartsAtClock s' = (s', Ok (documentClock row)) /\
    getClock s' = (s', Ok (documentClock row)).
Proof.
  intros Hclock Hcount Hcohort.
  rewrite (pruneTombstones_run_no_cut s row rest Hclock Hcount).
  - eexists. split; [done|]. simpl. split; [done|].
    unfold _getTombstoneHistoryStartsAtClock, getClock, query_one,
      select_tombstoneHistoryStartsAtClock_one, select_documentClock_one.
    simpl. by rewrite Hclock.
  - unfold find_cutoff.
    apply (find_cutoff_loop_one_cohort _ _ _ c0); [done| |lia].
    unfold TOMBSTONE_PRUNE_BUFFER_SIZE. lia.
Qed.

Lemma tombstones_storage_with ds ts c w ls :
  tombstones (sql (storage_with (sql_with ds ts c w) ls)) = list_to_map ts.
Proof. reflexivity. Qed.

(** Every tombstone of the room with one cohort is at clock 1. *)
Lemma room_with_one_cohort_clocks id c :
  tombstones (sql room_with_one_cohort) !! id = Some c -> c = 1.
Proof.
  unfold room_with_one_cohort. rewrite tombstones_storage_with. intros Hl.
  apply elem_of_list_to_map_2 in Hl.
  apply list_elem_of_fmap in Hl as (n & Heq & _). by injection Heq.
Qed.

Lemma pruneTombstones_run_one_cohort_witness :
  clock (sql room_with_one_cohort)
    = [{| documentClock := 2; tombstoneHistoryStartsAtClock := 0 |}] /\
  (MAX_TOMBSTONES < select_count_tombstones (sql room_with_one_cohort))%nat /\
  exists s',
    pruneTombstones_run room_with_one_cohort = (s', Ok tt) /\
    tombstones (sql s') = tombstones (sql room_with_one_cohort) /\
    _getTombstoneHistoryStartsAtClock s' = (s', Ok 2) /\
    getClock s' = (s', Ok 2).
Proof.
  assert (Hclock : clock (sql room_with_one_cohort)
    = [{| documentClock := 2; tombstoneHistoryStartsAtClock := 0 |}])
    by reflexivity.
  assert (Hcount :
    (MAX_TOMBSTONES < select_count_tombstones (sql room_with_one_cohort))%nat).
  { apply Nat.ltb_lt. vm_compute. reflexivity. }
  split; [exact Hclock|]. split; [exact Hcount|].
  apply (pruneTombstones_run_one_cohort room_with_one_cohort
           {| documentClock := 2; tombstoneHistoryStartsAtClock := 0 |} [] 1
           Hclock Hcount).
  intros i [id c] _ Hi. apply (room_with_one_cohort_clocks id).
  apply select_tombstones_order_by_clock_desc_elem_of.
  exact (list_elem_of_lookup_2 _ _ _ Hi).
Defined.

(** The ids of the sorted rows are distinct, and there are as many rows
    as the count says. *)
Lemma select_tombstones_order_by_clock_desc_NoDup db :
  NoDup (select_tombstones_order_by_clock_desc db).*1.
Proof.
  unfold select_tombstones_order_by_clock_desc.
  rewrite merge_sort_Permutation. apply NoDup_fst_map_to_list.
Qed.

Lemma select_tombstones_order_by_clock_desc_length db :
  length (select_tombstones_order_by_clock_desc db)
  = select_count_tombstones db.
Proof.
  unfold select_tombstones_order_by_clock_desc, select_count_tombstones.
  rewrite merge_sort_Permutation. apply length_map_to_list.
Qed.

(** X17.  A run of the pruner that drops rows keeps as many tombstones as its
    cutoff, at least [TOMBSTONE_PRUNE_BUFFER_SIZE] and fewer than before,
    and never splits the tombstones of one clock: two tombstones written
    at the same clock are both kept or both dropped. *)
Theorem pruneTombstones_run_keeps_cohorts s :
  let ts := select_tombstones_order_by_clock_desc (sql s) in
  let cutoff := find_cutoff ts in
  (MAX_TOMBSTONES < select_count_tombstones (sql s))%nat ->
  (cutoff < length ts)%nat ->
  exists s',
    pruneTombstones_run s = (s', Ok tt) /\
    select_count_tombstones (sql s') = cutoff /\
    (TOMBSTONE_PRUNE_BUFFER_SIZE <= select_count_tombstones (sql s')
     < select_count_tombstones (sql s))%nat /\
    forall id id' c,
      tombstones (sql s) !! id = Some c ->
      tombstones (sql s) !! id' = Some c ->
      (tombstones (sql s') !! id = Some c <->
       tombstones (sql s') !! id' = Some c).
Proof.
  intros ts cutoff Hcount Hcut.
  destruct (pruneTombstones_run_overflow s Hcount Hcut)
    as (kept & dropped & s' & Hkept & Hdropped & Hrun & _ & Hiff & Hkeep
        & _ & _ & Hgap).
  fold ts cutoff in Hkept, Hdropped.
  destruct (find_cutoff_spec ts) as [Hbuf _]. fold cutoff in Hbuf.
  assert (Hmap : tombstones (sql s') = list_to_map (take cutoff ts)).
  { assert (Hnd : NoDup (take cutoff ts).*1).
    { rewrite fmap_take. eapply sublist_NoDup; [|apply sublist_take].
      apply select_tombstones_order_by_clock_desc_NoDup. }
    apply map_eq. intros id. apply option_eq. intros c.
    rewrite <- (elem_of_list_to_map _ _ _ Hnd). rewrite Hiff. split.
    - intros [Hm Hc].
      apply select_tombstones_order_by_clock_desc_elem_of in Hm.
      apply list_elem_of_lookup_1 in Hm as [i Hi]. fold ts in Hi.
      destruct (decide (i < cutoff)%nat) as [Hlt|Hge].
      + apply list_elem_of_lookup. exists i. by rewrite lookup_take_lt.
      + pose proof (select_tombstones_order_by_clock_desc_lookup
                      (sql s) cutoff i dropped (id, c)) as Hle.
        simpl in Hle. specialize (Hle ltac:(lia) Hdropped Hi). lia.
    - intros Hin. apply list_elem_of_lookup in Hin as [i Hi].
      apply lookup_take_Some in Hi as [Hi Hlt].
      split.
      + apply select_tombstones_order_by_clock_desc_elem_of.
        by eapply list_elem_of_lookup_2.
      + pose proof (select_tombstones_order_by_clock_desc_lookup
                      (sql s) i (cutoff - 1) (id, c) kept) as Hle.
        simpl in Hle. specialize (Hle ltac:(lia) Hi Hkept). lia. }
  assert (Hsize : select_count_tombstones (sql s') = cutoff).
  { unfold select_count_tombstones. rewrite Hmap.
    rewrite map_size_list_to_map.
    - apply length_take_le. lia.
    - rewrite fmap_take. eapply sublist_NoDup; [|apply sublist_take].
      apply select_tombstones_order_by_clock_desc_NoDup. }
  exists s'. split; [done|]. split; [done|]. split.
  - rewrite Hsize. split; [done|].
    by rewrite <- (select_tombstones_order_by_clock_desc_length (sql s)).
  - intros id id' c Hid Hid'. rewrite !Hiff. tauto.
Qed.

Lemma pruneTombstones_run_prune_frame :
  preserves prune_frame pruneTombstones_run.
Proof.
  unfold pruneTombstones_run. p_bind; [by apply preserves_gets; tc_solve|].
  intros n. case_decide; [|p_ret].
  p_bind; [by apply preserves_gets; tc_solve|]. intros ts. cbn zeta.
  p_bind.
  { destruct (ts !! find_cutoff ts); [p_ret|]. by intros s0. }
  intros w. p_bind.
  - apply preserves_modify. intros s0. unfold prune_frame. simpl.
    repeat split; try done. rewrite <- list_fmap_compose.
    by apply list_fmap_ext.
  - intros _. case_decide; [|p_ret].
    apply preserves_for_of; [tc_solve..|]. intros id.
    by apply preserves_modify.
Qed.

(** X19.  A run of the pruner on a store where no tombstone is behind the
    watermark and no row ahead of the clock leaves the clock alone, never
    lowers the watermark, never moves it past the clock, and leaves no
    row ahead of the clock. *)
Theorem pruneTombstones_run_watermark_goes_up s row rest :
  clock (sql s) = row :: rest ->
  tombstones_at_least (tombstoneHistoryStartsAtClock row) (sql s) ->
  tombstoneHistoryStartsAtClock row <= documentClock row ->
  rows_at_most (documentClock row) (sql s) ->
  exists s' w,
    pruneTombstones_run s = (s', Ok tt) /\
    getClock s' = (s', Ok (documentClock row)) /\
    _getTombstoneHistoryStartsAtClock s' = (s', Ok w) /\
    tombstoneHistoryStartsAtClock row <= w <= documentClock row /\
    rows_at_most (documentClock row) (sql s').
Proof.
  intros Hclock Hleast Hw [Hd Ht].
  assert (Hread : forall w db,
    clock db = clock (update_tombstoneHistoryStartsAtClock w (sql s)) ->
    select_documentClock_one db = Ok (documentClock row) /\
    select_tombstoneHistoryStartsAtClock_one db = Ok w).
  { intros w db Heq. unfold select_documentClock_one,
      select_tombstoneHistoryStartsAtClock_one. rewrite Heq. simpl.
    by rewrite Hclock. }
  destruct (decide (MAX_TOMBSTONES < select_count_tombstones (sql s))%nat)
    as [Hcount|Hcount].
  - destruct (decide (find_cutoff (select_tombstones_order_by_clock_desc (sql s))
                      < length (select_tombstones_order_by_clock_desc (sql s)))%nat)
      as [Hcut|Hcut].
    + destruct (pruneTombstones_run_overflow s Hcount Hcut)
        as (kept & dropped & s' & _ & _ & Hrun & Hclock' & Hiff & _ & Hold
            & _ & _).
      destruct (pruneTombstones_run_prune_frame s) as (Hdocs & _).
      rewrite Hrun in Hdocs. simpl in Hdocs.
      destruct (Hread dropped.2 (sql s') Hclock') as [Hc' Hw'].
      exists s', dropped.2. unfold getClock,
        _getTombstoneHistoryStartsAtClock, query_one.
      rewrite Hc', Hw'. split; [done|]. split; [done|]. split; [done|].
      split; [split; [by apply (Hleast dropped.1)|by apply (Ht dropped.1)]|].
      split.
      * intros id doc. rewrite Hdocs. apply Hd.
      * intros id t Hin. apply Hiff in Hin as [Hin _]. by apply (Ht id).
    + rewrite (pruneTombstones_run_no_cut s row rest Hclock Hcount) by lia.
      eexists _, (documentClock row). split; [done|].
      unfold getClock, _getTombstoneHistoryStartsAtClock, query_one,
        select_documentClock_one, select_tombstoneHistoryStartsAtClock_one.
      simpl. rewrite Hclock. simpl.
      split; [done|]. split; [done|]. split; [lia|]. by split.
  - exists s, (tombstoneHistoryStartsAtClock row). split.
    + unfold pruneTombstones_run.
      rewrite (bind_Ok _ _ s s (select_count_tombstones (sql s))) by done.
      by rewrite decide_False by done.
    + unfold getClock, _getTombstoneHistoryStartsAtClock, query_one,
        select_documentClock_one, select_tombstoneHistoryStartsAtClock_one.
      rewrite Hclock. split; [done|]. split; [done|]. split; [lia|]. by split.
Qed.

Lemma documents_storage_with ds ts c w ls :
  documents (sql (storage_with (sql_with ds ts c w) ls)) = list_to_map ds.
Proof. reflexivity. Qed.

Lemma pruneTombstones_run_keeps_cohorts_witness :
  (MAX_TOMBSTONES
   < select_count_tombstones (sql room_with_5001_tombstones))%nat /\
  (find_cutoff
     (select_tombstones_order_by_clock_desc (sql room_with_5001_tombstones))
   < length
       (select_tombstones_order_by_clock_desc
          (sql room_with_5001_tombstones)))%nat /\
  exists s',
    pruneTombstones_run room_with_5001_tombstones = (s', Ok tt) /\
    (TOMBSTONE_PRUNE_BUFFER_SIZE <= select_count_tombstones (sql s')
     < select_count_tombstones (sql room_with_5001_tombstones))%nat.
Proof.
  destruct (cuts_between_true _ _ _ room_with_5001_tombstones_cutoff)
    as (Hcount & Hcut & _ & _).
  split; [exact Hcount|]. split; [exact Hcut|].
  destruct (pruneTombstones_run_keeps_cohorts room_with_5001_tombstones
              Hcount Hcut) as (s' & Hrun & _ & Hsize & _).
  exists s'. split; [exact Hrun|exact Hsize].
Defined.

Lemma pruneTombstones_run_watermark_goes_up_witness :
  let row := {| documentClock := Z.of_nat (S MAX_TOMBSTONES);
                tombstoneHistoryStartsAtClock := 0 |} in
  clock (sql room_with_5001_tombstones) = [row] /\
  tombstones_at_least 0 (sql room_with_5001_tombstones) /\
  rows_at_most (Z.of_nat (S MAX_TOMBSTONES)) (sql room_with_5001_tombstones) /\
  exists s' w,
    pruneTombstones_run room_with_5001_tombstones = (s', Ok tt) /\
    getClock s' = (s', Ok (Z.of_nat (S MAX_TOMBSTONES))) /\
    _getTombstoneHistoryStartsAtClock s' = (s', Ok w) /\
    0 <= w <= Z.of_nat (S MAX_TOMBSTONES) /\
    rows_at_most (Z.of_nat (S MAX_TOMBSTONES)) (sql s').
Proof.
  intros row.
  assert (Hclock : clock (sql room_with_5001_tombstones) = [row])
    by reflexivity.
  assert (Hin : forall id t,
    tombstones (sql room_with_5001_tombstones) !! id = Some t ->
    0 <= t <= Z.of_nat (S MAX_TOMBSTONES)).
  { unfold room_with_5001_tombstones. rewrite tombstones_storage_with.
    intros id t Hl. apply elem_of_list_to_map_2 in Hl.
    apply list_elem_of_fmap in Hl as (n & Heq & Hn).
    apply elem_of_seq in Hn. injection Heq as _ ->. lia. }
  assert (Hleast : tombstones_at_least 0 (sql room_with_5001_tombstones)).
  { intros id t Hl. by apply (Hin id). }
  assert (Hmost : rows_at_most (Z.of_nat (S MAX_TOMBSTONES))
                    (sql room_with_5001_tombstones)).
  { split.
    - unfold room_with_5001_tombstones. rewrite documents_storage_with.
      intros id doc Hl. by rewrite list_to_map_nil, lookup_empty in Hl.
    - intros id t Hl. by apply (Hin id). }
  split; [exact Hclock|]. split; [exact Hleast|]. split; [exact Hmost|].
  apply (pruneTombstones_run_watermark_goes_up room_with_5001_tombstones
           row [] Hclock Hleast); [simpl; lia|exact Hmost].
Defined.

(** ** The constructor *)


Section ConstructorProofs.
Context {R : Type} `{UnknownRecord R}.
Context (record_id : R -> string).
Context {Schema : Type} (JSON_stringify_schema : Schema -> string).
Context (MetadataKeys_schema : string).

(** The loop of INSERTs over documents with distinct ids, none of them in
    the table: all the rows are added. *)
Lemma for_of_insert_into_documents (docs : list (SnapshotDocument R)) s :
  NoDup (snapshot_row record_id <$> docs).*1 ->
  (forall id, id ∈ (snapshot_row record_id <$> docs).*1 -> documents (sql s) !! id = None) ->
  for_of docs
    (fun doc =>
     exec_checked
       (insert_into_documents (record_id (snapshot_state doc))
          (JSON_stringify (snapshot_state doc))
          (snapshot_lastChangedClock doc))) s
  = (with_sql
       (with_documents (list_to_map (snapshot_row record_id <$> docs) ∪ documents (sql s))
                       (sql s)) s,
     Ok tt).
Proof.
  revert s. induction docs as [|doc docs IH]; intros s Hnd Hfresh.
  - simpl. rewrite (left_id_L ∅ (∪)). by destruct s as [[] ? ? ? ? ?].
  - cbn [for_of fmap list_fmap] in *. csimpl in Hnd.
    apply NoDup_cons in Hnd as [Hnotin Hnd].
    unfold bind at 1, exec_checked at 1, insert_into_documents at 1.
    rewrite Hfresh by (csimpl; apply list_elem_of_here).
    rewrite IH; [| done |].
    + simpl. csimpl. rewrite <- insert_union_l, <- insert_union_r; [done|].
      by apply not_elem_of_list_to_map_1.
    + intros id Hid. simpl. rewrite lookup_insert_ne.
      * apply Hfresh. csimpl. by apply list_elem_of_further.
      * intros <-. by apply Hnotin.
Qed.


(** The loop of INSERTs over the entries of a map, into a table that has
    none of their ids. *)
Lemma for_of_insert_into_tombstones (entries : list (string * Z)) s :
  NoDup entries.*1 ->
  (forall id, id ∈ entries.*1 -> tombstones (sql s) !! id = None) ->
  for_of entries
    (fun entry => exec_checked (insert_into_tombstones entry.1 entry.2)) s
  = (with_sql
       (with_tombstones (list_to_map entries ∪ tombstones (sql s)) (sql s)) s,
     Ok tt).
Proof.
  revert s. induction entries as [|[id0 c0] entries IH]; intros s Hnd Hfresh.
  - simpl. rewrite (left_id_L ∅ (∪)). by destruct s as [[] ? ? ? ? ?].
  - cbn [for_of] in *. csimpl in Hnd.
    apply NoDup_cons in Hnd as [Hnotin Hnd].
    unfold bind at 1, exec_checked at 1, insert_into_tombstones at 1.
    simpl. rewrite Hfresh by (csimpl; apply list_elem_of_here).
    rewrite IH; [| done |].
    + simpl. rewrite <- insert_union_l, <- insert_union_r; [done|].
      by apply not_elem_of_list_to_map_1.
    + intros id Hid. simpl. rewrite lookup_insert_ne.
      * apply Hfresh. csimpl. by apply list_elem_of_further.
      * intros <-. by apply Hnotin.
Qed.

End ConstructorProofs.

Section ConstructorClaims.
Context {R : Type} `{UnknownRecord R}.
Context (record_id : R -> string).
Context {Schema : Type} (JSON_stringify_schema : Schema -> string).
Context (MetadataKeys_schema : string).

(** The tables a snapshot with distinct ids is loaded into. *)
Lemma load_snapshot_tables (snapshot : RoomSnapshot R Schema) this :
  NoDup (snapshot_rows record_id snapshot).*1 ->
  load_snapshot record_id JSON_stringify_schema MetadataKeys_schema
    snapshot this
  = (with_sql
       {| documents := list_to_map (snapshot_rows record_id snapshot);
          tombstones := default ∅ (snapshot_tombstones snapshot);
          metadata :=
            {[MetadataKeys_schema :=
                JSON_stringify_schema (snapshot_schema snapshot)]};
          clock :=
            [{| documentClock := resolve_documentClock snapshot;
                tombstoneHistoryStartsAtClock :=
                  resolve_tombstoneHistoryStartsAtClock snapshot |}] |}
       this,
     Ok tt).
Proof.
  intros Hnd. unfold load_snapshot.
  do 4 (erewrite bind_Ok by reflexivity).
  erewrite bind_Ok.
  2: { apply for_of_insert_into_documents; [exact Hnd|].
       intros id _. apply lookup_empty. }
  destruct (snapshot_tombstones snapshot) as [ts|].
  - erewrite bind_Ok.
    2: { apply for_of_insert_into_tombstones.
         - apply NoDup_fst_map_to_list.
         - intros id _. apply lookup_empty. }
    unfold bind, exec_checked, insert_into_metadata, exec, modify. simpl.
    rewrite lookup_empty. simpl.
    rewrite list_to_map_to_list, !(right_id_L ∅ (∪)), insert_empty.
    reflexivity.
  - erewrite bind_Ok by reflexivity.
    unfold bind, exec_checked, insert_into_metadata, exec, modify. simpl.
    rewrite lookup_empty. simpl.
    rewrite !(right_id_L ∅ (∪)), insert_empty. reflexivity.
Qed.

(** X1.  The constructor, given a snapshot whose documents have distinct ids,
    replaces whatever the storage held: the tables are the rows of the
    documents, the tombstones of the snapshot, the schema under its key,
    and one clock row, with [clock] standing in for a missing
    [documentClock] and the clock for a missing watermark.  The probe
    then answers [true], and constructing again on these tables without
    a snapshot keeps them. *)
Theorem new_SqlLiteSyncStorage_from_snapshot
    storage (snapshot : RoomSnapshot R Schema) :
  NoDup (snapshot_rows record_id snapshot).*1 ->
  let db :=
    {| documents := list_to_map (snapshot_rows record_id snapshot);
       tombstones := default ∅ (snapshot_tombstones snapshot);
       metadata :=
         {[MetadataKeys_schema :=
             JSON_stringify_schema (snapshot_schema snapshot)]};
       clock :=
         [{| documentClock := resolve_documentClock snapshot;
             tombstoneHistoryStartsAtClock :=
               resolve_tombstoneHistoryStartsAtClock snapshot |}] |} in
  new_SqlLiteSyncStorage record_id JSON_stringify_schema MetadataKeys_schema
    storage (Some snapshot)
  = (new_object db, Ok tt) /\
  hasBeenInitialized (stored db) = true /\
  new_SqlLiteSyncStorage record_id JSON_stringify_schema MetadataKeys_schema
    (stored db) None
  = (new_object db, Ok tt).
Proof.
  intros Hnd db. unfold new_SqlLiteSyncStorage.
  rewrite (load_snapshot_tables _ _ Hnd). by repeat split.
Qed.

(** X2.  Reading back through a handle what the constructor loaded, for
    records that come back from their JSON text: each document of the
    snapshot under its id and clock, the clock, the watermark, the
    tombstones and the schema. *)
Theorem new_SqlLiteSyncStorage_read_back
    storage (snapshot : RoomSnapshot R Schema) :
  (forall r : R, JSON_parse (JSON_stringify r) = r) ->
  NoDup (snapshot_rows record_id snapshot).*1 ->
  let this :=
    (new_SqlLiteSyncStorage record_id JSON_stringify_schema
       MetadataKeys_schema storage (Some snapshot)).1 in
  (forall doc, doc ∈ snapshot_documents snapshot ->
     (getDocument (record_id (snapshot_state doc)) (fresh_handle this)).2
     = Ok (Some (snapshot_state doc, snapshot_lastChangedClock doc))) /\
  (forall id, (@getDocument R _ id (fresh_handle this)).2 <> Ok None ->
     exists doc, doc ∈ snapshot_documents snapshot /\
                 id = record_id (snapshot_state doc)) /\
  getClock this = (this, Ok (resolve_documentClock snapshot)) /\
  _getTombstoneHistoryStartsAtClock this
    = (this, Ok (resolve_tombstoneHistoryStartsAtClock snapshot)) /\
  (txn_tombstones (fresh_handle this)).2
    = Ok (map_to_list (default ∅ (snapshot_tombstones snapshot))) /\
  (getMetadata MetadataKeys_schema (fresh_handle this)).2
    = Ok (Some (JSON_stringify_schema (snapshot_schema snapshot))).
Proof.
  intros Hjson Hnd this. subst this. unfold new_SqlLiteSyncStorage.
  rewrite (load_snapshot_tables _ _ Hnd). simpl.
  split; [|split; [|split; [done|split; [done|split]]]].
  - intros doc Hdoc. unfold getDocument. run_M.
    unfold select_document_where_id. simpl.
    rewrite (elem_of_list_to_map_1 _ (record_id (snapshot_state doc))
               (snapshot_row record_id doc).2 Hnd).
    + simpl. by rewrite Hjson.
    + apply list_elem_of_fmap. by exists doc.
  - intros id. unfold getDocument. run_M.
    unfold select_document_where_id. simpl.
    destruct (list_to_map (snapshot_rows record_id snapshot) !! id)
      as [row|] eqn:E; [|done]. intros _.
    apply elem_of_list_to_map_2 in E.
    apply list_elem_of_fmap in E as (doc & Heq & Hdoc).
    exists doc. split; [done|]. by injection Heq.
  - unfold txn_tombstones. by run_M.
  - unfold getMetadata. run_M. unfold select_metadata_where_key. simpl.
    by rewrite lookup_singleton_eq.
Qed.


(** X4.  The constructor without a snapshot on a storage for which the probe
    answers [false] returns an object whose [clock] table is empty: the
    probe still answers [false], and every transaction throws on its
    first read of the clock, before the body is called. *)
Theorem new_SqlLiteSyncStorage_without_clock_row storage :
  hasBeenInitialized storage = false ->
  let this :=
    (new_SqlLiteSyncStorage record_id JSON_stringify_schema
       MetadataKeys_schema storage (@None (RoomSnapshot R Schema))).1 in
  hasBeenInitialized (stored (sql this)) = false /\
  getClock this = (this, Throw SqlOneNoRow) /\
  forall T source (cb : Callback R T),
    transaction source cb this = (this, Throw SqlOneNoRow).
Proof.
  intros Hprobe this. subst this. unfold new_SqlLiteSyncStorage. simpl.
  assert (Hclock : default [] (table_clock storage) = []).
  { unfold hasBeenInitialized in Hprobe.
    destruct (table_clock storage) as [[|row rows]|]; try done. }
  unfold hasBeenInitialized, transaction, bind, getClock, query_one,
    select_documentClock_one. simpl. rewrite Hclock. by repeat split.
Qed.

End ConstructorClaims.

Lemma new_SqlLiteSyncStorage_from_snapshot_witness :
  NoDup (snapshot_rows (fun r : string => r) legacy_snapshot).*1 /\
  new_SqlLiteSyncStorage (fun r : string => r) (fun schema : string => schema)
    "schema" (stored (sql room_at_5)) (Some legacy_snapshot)
  = (new_object
       {| documents :=
            list_to_map
              [("doc:a", {| state := "doc:a"; lastChangedClock := 3 |});
               ("doc:b", {| state := "doc:b"; lastChangedClock := 7 |})];
          tombstones := {["doc:c" := 5]};
          metadata := {["schema" := "{}"]};
          clock := [{| documentClock := 7;
                       tombstoneHistoryStartsAtClock := 7 |}] |},
     Ok tt).
Proof.
  assert (Hnd : NoDup (snapshot_rows (fun r : string => r) legacy_snapshot).*1).
  { apply (bool_decide_unpack (NoDup _)). vm_compute. exact I. }
  split; [exact Hnd|].
  exact (proj1 (new_SqlLiteSyncStorage_from_snapshot
                  (fun r : string => r) (fun schema : string => schema)
                  "schema" (stored (sql room_at_5)) legacy_snapshot Hnd)).
Defined.

Lemma new_SqlLiteSyncStorage_read_back_witness :
  (forall r : string, JSON_parse (JSON_stringify r) = r) /\
  NoDup (snapshot_rows (fun r : string => r) legacy_snapshot).*1 /\
  (getDocument "doc:b"
     (fresh_handle
        (new_SqlLiteSyncStorage (fun r : string => r)
           (fun schema : string => schema) "schema" fresh_storage
           (Some legacy_snapshot)).1)).2
  = Ok (Some ("doc:b", 7)).
Proof.
  assert (Hjson : forall r : string, JSON_parse (JSON_stringify r) = r)
    by reflexivity.
  assert (Hnd : NoDup (snapshot_rows (fun r : string => r) legacy_snapshot).*1).
  { apply (bool_decide_unpack (NoDup _)). vm_compute. exact I. }
  split; [exact Hjson|]. split; [exact Hnd|].
  apply (proj1 (new_SqlLiteSyncStorage_read_back
                  (fun r : string => r) (fun schema : string => schema)
                  "schema" fresh_storage legacy_snapshot Hjson Hnd)
           {| snapshot_state := "doc:b"; snapshot_lastChangedClock := 7 |}).
  apply list_elem_of_further, list_elem_of_here.
Defined.


Lemma new_SqlLiteSyncStorage_without_clock_row_witness :
  hasBeenInitialized fresh_storage = false /\
  transaction "s" (write_one "r:1" "one")
    (new_SqlLiteSyncStorage (fun r : string => r)
       (fun schema : string => schema) "schema" fresh_storage
       (@None (RoomSnapshot string string))).1
  = ((new_SqlLiteSyncStorage (fun r : string => r)
        (fun schema : string => schema) "schema" fresh_storage
        (@None (RoomSnapshot string string))).1,
     Throw SqlOneNoRow).
Proof.
  split; [reflexivity|].
  exact (proj2 (proj2 (new_SqlLiteSyncStorage_without_clock_row
                         (fun r : string => r)
                         (fun schema : string => schema) "schema"
                         fresh_storage eq_refl))
           unit "s" (write_one "r:1" "one")).
Defined.

(** ** The listeners and their disposers *)

(** X5.  [onChange] on a set of closures made by earlier calls adds one
    closure, which was not in the set, around the callback; its disposer
    takes out that closure and no other, and a second call of the
    disposer changes nothing. *)
Theorem onChange_disposer f s :
  registrations_fresh s ->
  let l := {| registration := registrations s; callback := f |} in
  let s1 := (onChange f s).1 in
  onChange f s = (s1, Ok l) /\
  listeners s1 = listeners s ++ [l] /\
  (l ∉ listeners s) /\
  registrations_fresh s1 /\
  listeners (unsubscribe l s1).1 = listeners s /\
  unsubscribe l (unsubscribe l s1).1 = ((unsubscribe l s1).1, Ok tt).
Proof.
  intros Hfresh l s1. unfold registrations_fresh in *.
  assert (Hnotin : l ∉ listeners s).
  { intros Hin. rewrite Forall_forall in Hfresh.
    specialize (Hfresh l Hin). simpl in Hfresh. lia. }
  assert (Hfilter : filter (fun l' => l' <> l) (listeners s) = listeners s).
  { clear Hfresh. induction (listeners s) as [|l0 ls IH]; [done|].
    rewrite filter_cons_True.
    - rewrite IH; [done|]. intros Hin. apply Hnotin. by right.
    - intros ->. apply Hnotin. by left. }
  assert (Hout : listeners (unsubscribe l s1).1 = listeners s).
  { subst s1. unfold unsubscribe, onChange, bind, gets, modify, ret. simpl.
    rewrite filter_app, filter_cons_False, filter_nil, app_nil_r
      by naive_solver. exact Hfilter. }
  split; [done|]. split; [done|]. split; [done|]. split; [|split; [done|]].
  - subst s1. unfold onChange, bind, gets, modify, ret. simpl.
    apply Forall_app. split.
    + eapply Forall_impl; [exact Hfresh|]. simpl. intros; lia.
    + apply Forall_singleton. simpl. lia.
  - unfold unsubscribe at 1, modify. f_equal.
    rewrite Hout, Hfilter.
    destruct (unsubscribe l s1).1 as [db ls n t ce cs] eqn:E.
    simpl in *. by rewrite <- Hout.
Qed.

Section TwoTransactions.
Context {R : Type} `{UnknownRecord R}.

(** X6.  A callback handed to [onChange] twice is in the set twice, and a
    transaction that changes the clock calls it twice, after the
    listeners that were there. *)
Theorem onChange_twice_called_twice {T} f source (cb : Callback R T) s s' r :
  let s2 := (bind (onChange f) (fun _ => onChange f) s).1 in
  transaction source cb s2 = (s', Ok r) ->
  didChange r = true ->
  calls s' =
    calls s
    ++ (notification source (result_documentClock r) <$> listeners s)
    ++ [{| notified := f; arg_source := source;
           arg_documentClock := result_documentClock r |};
        {| notified := f; arg_source := source;
           arg_documentClock := result_documentClock r |}].
Proof.
  intros s2 Htx Hchange.
  destruct (clock (sql s2)) as [|row rest] eqn:E.
  { unfold transaction, bind at 1, getClock, query_one,
      select_documentClock_one in Htx. by rewrite E in Htx. }
  pose proof (transaction_outcome source cb s2 row rest E) as Hout.
  destruct (call_step cb (fresh_handle s2)) as (L & _ & C & _).
  simpl in Hout. rewrite Htx in Hout.
  destruct (call cb (fresh_handle s2)) as [txn' [t|e]]; [|done].
  simpl in *. injection Hout as -> ->. simpl in *.
  rewrite Hchange. simpl. rewrite C, L. subst s2.
  unfold onChange, bind, gets, modify, ret. simpl.
  rewrite !fmap_app. simpl. by rewrite <- app_assoc.
Qed.

(** X9.  Two transactions in a row that both return: the clock of the second
    is the clock of the first, plus one exactly when the second changed
    something. *)
Theorem transactions_in_a_row
    {T U} source (a : Callback R T) (b : Callback R U) s s1 s2 r1 r2 :
  transaction source a s = (s1, Ok r1) ->
  transaction source b s1 = (s2, Ok r2) ->
  result_documentClock r2
  = result_documentClock r1 + if didChange r2 then 1 else 0.
Proof.
  intros H1 H2.
  assert (Hclock : forall V (c : Callback R V) s0 s0' r0,
    transaction source c s0 = (s0', Ok r0) ->
    exists row rest,
      clock (sql s0) = row :: rest /\
      select_documentClock_one (sql s0') = Ok (result_documentClock r0) /\
      result_documentClock r0
      = documentClock row + if didChange r0 then 1 else 0).
  { intros V c s0 s0' r0 Htx.
    destruct (clock (sql s0)) as [|row rest] eqn:E.
    { unfold transaction, bind at 1, getClock, query_one,
        select_documentClock_one in Htx. by rewrite E in Htx. }
    pose proof (transaction_outcome source c s0 row rest E) as Hout.
    pose proof (clock_after_call c s0 row rest E) as Hafter.
    simpl in Hout, Hafter. rewrite Htx in Hout.
    destruct (call c (fresh_handle s0)) as [txn' [t|e]]; [|done].
    simpl in *. injection Hout as -> ->. simpl.
    assert (Hsql : forall b0 l,
      sql (if b0 : bool then with_calls l (storage txn') else storage txn')
      = sql (storage txn')) by (by intros []).
    exists row, rest. rewrite Hsql, Hafter. split; [done|]. split; [done|].
    destruct (_didIncrementClock txn'); simpl.
    - by rewrite bool_decide_eq_true_2 by lia.
    - by rewrite bool_decide_eq_false_2 by lia. }
  destruct (Hclock _ _ _ _ _ H1) as (row1 & rest1 & _ & Hafter1 & _).
  destruct (Hclock _ _ _ _ _ H2) as (row2 & rest2 & E2 & _ & ->).
  unfold select_documentClock_one in Hafter1. rewrite E2 in Hafter1.
  by injection Hafter1 as ->.
Qed.

End TwoTransactions.

Lemma onChange_disposer_witness :
  registrations_fresh empty_room /\
  listeners (onChange 7 empty_room).1
    = two_listeners ++ [{| registration := 2; callback := 7 |}] /\
  listeners
    (unsubscribe {| registration := 2; callback := 7 |}
       (onChange 7 empty_room).1).1
    = two_listeners.
Proof.
  assert (Hfresh : registrations_fresh empty_room).
  { unfold registrations_fresh. simpl. repeat constructor. }
  split; [exact Hfresh|].
  destruct (onChange_disposer 7 empty_room Hfresh)
    as (_ & Hadd & _ & _ & Hgone & _).
  split; [exact Hadd|exact Hgone].
Defined.

Lemma onChange_twice_called_twice_witness :
  exists s' r,
    transaction "s" (write_one "r:1" "one")
      (bind (onChange 7) (fun _ => onChange 7)
         (new_object (sql empty_room))).1
    = (s', Ok r) /\
    didChange r = true /\
    calls s' =
      [{| notified := 7; arg_source := "s";
          arg_documentClock := result_documentClock r |};
       {| notified := 7; arg_source := "s";
          arg_documentClock := result_documentClock r |}].
Proof.
  destruct (transaction "s" (write_one "r:1" "one")
              (bind (onChange 7) (fun _ => onChange 7)
                 (new_object (sql empty_room))).1)
    as [s' [r|e]] eqn:E.
  - assert (Hchange : didChange r = true).
    { pose proof (f_equal snd E) as Hr. vm_compute in Hr.
      injection Hr as <-. reflexivity. }
    exists s', r. split; [done|]. split; [exact Hchange|].
    exact (onChange_twice_called_twice 7 "s" (write_one "r:1" "one")
             (new_object (sql empty_room)) s' r E Hchange).
  - vm_compute in E. discriminate.
Defined.

Lemma transactions_in_a_row_witness :
  exists s1 s2 r1 r2,
    transaction "s" (write_one "r:1" "one") empty_room = (s1, Ok r1) /\
    transaction "s" read_changes s1 = (s2, Ok r2) /\
    result_documentClock r2
    = result_documentClock r1 + if didChange r2 then 1 else 0.
Proof.
  destruct (transaction "s" (write_one "r:1" "one") empty_room)
    as [s1 [r1|e1]] eqn:E1.
  2: { vm_compute in E1. discriminate. }
  destruct (transaction "s" read_changes s1) as [s2 [r2|e2]] eqn:E2.
  - exists s1, s2, r1, r2. split; [done|]. split; [done|].
    exact (transactions_in_a_row "s" _ _ _ _ _ _ _ E1 E2).
  - exfalso. pose proof (f_equal fst E1) as Hs. simpl in Hs. subst s1.
    vm_compute in E2. discriminate.
Defined.

(** ** What a failed delete leaves behind, and what the scans return *)

Section Handle.
Context {R : Type} `{UnknownRecord R}.

(** X13.  [deleteDocument] on an id that has a tombstone throws only at its
    INSERT: by then the flag is up, the clock is the clock of the
    transaction, and the document row of the id is gone, while the
    tombstones are as they were and the timer of the pruner was not
    armed.  A body that catches the error goes on from that state. *)
Theorem deleteDocument_throws_after_deleting txn id row rest c0 :
  clock (sql (storage txn)) = row :: rest ->
  tombstones (sql (storage txn)) !! id = Some c0 ->
  let c := documentClock row + if _didIncrementClock txn then 0 else 1 in
  exists txn',
    deleteDocument id txn
      = (txn', Throw (SqlConstraintPrimaryKey "tombstones")) /\
    _didIncrementClock txn' = true /\
    txn_getClock txn' = (txn', Ok c) /\
    documents (sql (storage txn')) = delete id (documents (sql (storage txn))) /\
    tombstones (sql (storage txn')) = tombstones (sql (storage txn)) /\
    pruneTombstones_timer (storage txn')
      = pruneTombstones_timer (storage txn).
Proof.
  intros Hclock Hsome c. subst c.
  unfold deleteDocument, getNextClock. run_M.
  unfold select_documentClock_one, insert_into_tombstones.
  destruct txn as [s flag]. simpl in *.
  destruct flag; simpl; rewrite Hclock; simpl; rewrite Hsome; simpl;
    (eexists; split; [reflexivity|]); simpl; rewrite ?Hclock; simpl;
    rewrite ?Z.add_0_r; by repeat split.
Qed.


End Handle.

Lemma deleteDocument_throws_after_deleting_witness :
  let txn := fresh_handle (write_delete_write empty_room).1 in
  clock (sql (storage txn))
    = [{| documentClock := 3; tombstoneHistoryStartsAtClock := 0 |}] /\
  tombstones (sql (storage txn)) !! "r:1" = Some 2 /\
  documents (sql (storage txn)) !! "r:1"
    = Some {| state := "again"; lastChangedClock := 3 |} /\
  exists txn',
    deleteDocument "r:1" txn
      = (txn', Throw (SqlConstraintPrimaryKey "tombstones")) /\
    txn_getClock txn' = (txn', Ok 4) /\
    documents (sql (storage txn')) !! "r:1" = None /\
    tombstones (sql (storage txn')) !! "r:1" = Some 2.
Proof.
  intros txn.
  assert (Hclock : clock (sql (storage txn))
    = [{| documentClock := 3; tombstoneHistoryStartsAtClock := 0 |}])
    by (vm_compute; reflexivity).
  assert (Htomb : tombstones (sql (storage txn)) !! "r:1" = Some 2)
    by (vm_compute; reflexivity).
  split; [exact Hclock|]. split; [exact Htomb|].
  split; [vm_compute; reflexivity|].
  destruct (deleteDocument_throws_after_deleting txn "r:1"
              _ _ 2 Hclock Htomb)
    as (txn' & Hthrow & _ & Hget & Hdocs & Htombs & _).
  exists txn'. split; [exact Hthrow|]. split; [exact Hget|].
  rewrite Hdocs, Htombs. split; [apply lookup_delete_eq|exact Htomb].
Defined.
